(** * countime.py: the countdown engine of the eye-care timer

    A shallow embedding of [src/claude code/countime.py]: the configuration
    dictionary ([read_config], [save_settings]), the timer session held by
    the [App] object (phase, run state, remaining seconds), the handlers that
    mutate it ([start_countdown], [toggle_pause], [reset_countdown], [_tick],
    [_on_screen_lock], [_on_screen_unlock], [_close_popup_and_start_next])
    and the queue of [after(1000, self._tick)] callbacks.

    Python exceptions are kept: a handler is a computation over the [App]
    object that either returns or raises, and whatever it assigned before
    raising stays assigned, as in Python. *)

From Stdlib Require Import ZArith List String Ascii Bool Lia DecimalString.
Import ListNotations.
Open Scope Z_scope.
Open Scope string_scope.

(** ** Exceptions and results *)

Inductive exn : Type :=
| TypeError
| ValueError
| AttributeError
| OverflowError
| OSError.

Inductive result (A : Type) : Type :=
| Ret (a : A)
| Raise (e : exn).

Arguments Ret {A} a.
Arguments Raise {A} e.

Definition bindR {A B : Type} (r : result A) (k : A -> result B) : result B :=
  match r with
  | Ret a => k a
  | Raise e => Raise e
  end.

Notation "'let?' x ':=' r 'in' k" := (bindR r (fun x => k))
  (at level 10, x name, k at level 200).


(** ** Values that [json.load] produces

    [F] is the type of Python floats; the embedding never looks inside one. *)

#[local] Set Warnings "-register-all".

Inductive pyval (F : Type) : Type :=
| PNone
| PBool (b : bool)
| PInt (z : Z)
| PFloat (f : F)
| PStr (s : string)
| PList (l : list (pyval F))
| PDict (d : list (string * pyval F)).

Arguments PNone {F}.
Arguments PBool {F} b.
Arguments PInt {F} z.
Arguments PFloat {F} f.
Arguments PStr {F} s.
Arguments PList {F} l.
Arguments PDict {F} d.

(** The builtins whose result depends on text or on floating point are taken
    from the interpreter: every theorem below holds for each interpreter. *)
Class Interp : Type := {
  pyfloat : Type;
  (** [int(f)]: truncation, raising on [nan] and [inf] *)
  int_of_float : pyfloat -> result Z;
  (** [bool(f)] *)
  bool_of_float : pyfloat -> bool;
  (** [int(s)]: [ValueError] when [s] is no integer literal *)
  int_of_str : string -> result Z;
  (** the text a [tk.StringVar] holds after [set(v)] *)
  tk_str : pyval pyfloat -> string
}.

(** A dict keeps its items in insertion order. *)
Fixpoint dict_get {V : Type} (k : string) (d : list (string * V)) : option V :=
  match d with
  | [] => None
  | (k', v) :: d' => if String.eqb k k' then Some v else dict_get k d'
  end.

Fixpoint dict_set {V : Type} (k : string) (v : V) (d : list (string * V))
  : list (string * V) :=
  match d with
  | [] => [(k, v)]
  | (k', v') :: d' =>
      if String.eqb k k' then (k, v) :: d' else (k', v') :: dict_set k v d'
  end.

Definition dict_keys {V : Type} (d : list (string * V)) : list string :=
  map fst d.

Section Program.
Context {I : Interp}.

Definition value : Type := pyval pyfloat.

(** [bool(v)] *)
Definition py_bool (v : value) : bool :=
  match v with
  | PNone => false
  | PBool b => b
  | PInt z => negb (z =? 0)%Z
  | PFloat f => bool_of_float f
  | PStr s => negb (String.eqb s "")
  | PList l => match l with [] => false | _ :: _ => true end
  | PDict d => match d with [] => false | _ :: _ => true end
  end.

(** [int(v)] *)
Definition py_int (v : value) : result Z :=
  match v with
  | PNone => Raise TypeError
  | PBool b => Ret (if b then 1 else 0)
  | PInt z => Ret z
  | PFloat f => int_of_float f
  | PStr s => int_of_str s
  | PList _ => Raise TypeError
  | PDict _ => Raise TypeError
  end.

(** [cfg.get(key, default)]: only a dict has [get]. *)
Definition py_get (cfg : value) (key : string) (default : value)
  : result value :=
  match cfg with
  | PDict d =>
      Ret (match dict_get key d with Some v => v | None => default end)
  | _ => Raise AttributeError
  end.

Definition is_str (key : string) (v : value) : bool :=
  match v with
  | PStr s => String.eqb s key
  | _ => false
  end.

(** [key in cfg] for a string [key]: a key of a dict, an element of a
    list, a substring of a string; the other values are not containers. *)
Definition py_contains (key : string) (cfg : value) : result bool :=
  match cfg with
  | PDict d =>
      Ret (match dict_get key d with Some _ => true | None => false end)
  | PList l => Ret (existsb (is_str key) l)
  | PStr s => Ret (match index 0 key s with Some _ => true | None => false end)
  | _ => Raise TypeError
  end.

(** [cfg[key] = v] for a string [key]: only a dict accepts it. *)
Definition py_setitem (cfg : value) (key : string) (v : value)
  : result value :=
  match cfg with
  | PDict d => Ret (PDict (dict_set key v d))
  | _ => Raise TypeError
  end.

(** [int(cfg.get(key, default))] *)
Definition get_int (cfg : value) (key : string) (default : Z) : result Z :=
  let? v := py_get cfg key (PInt default) in py_int v.

(** [bool(cfg.get(key, default))], also the truth of [cfg.get(key, default)]
    in a condition *)
Definition get_bool (cfg : value) (key : string) (default : bool)
  : result bool :=
  let? v := py_get cfg key (PBool default) in Ret (py_bool v).

(** ** The configuration file *)

(** What [CONFIG_PATH] holds when it is read: nothing, something that
    [open] or [json.load] raises on, or a JSON document. *)
Inductive config_file : Type :=
| Absent
| Garbled (e : exn)
| Holds (doc : value).

Definition default_config : value :=
  PDict [ ("use_seconds", PInt 1500);
          ("rest_seconds", PInt 300);
          ("popup_width", PInt 600);
          ("popup_height", PInt 400);
          ("video_path", PStr "");
          ("auto_start_countdown", PBool true);
          ("windows_autostart", PBool false);
          ("enable_tray", PBool true);
          ("enable_toast", PBool true);
          ("fullscreen_rest", PBool false);
          ("enable_lock_screen", PBool false) ].

(** [os.path.exists(CONFIG_PATH)] *)
Definition path_exists (f : config_file) : bool :=
  match f with
  | Absent => false
  | _ => true
  end.

(** [json.load(f)] under [with open(CONFIG_PATH, ...)] *)
Definition json_load (f : config_file) : result value :=
  match f with
  | Absent => Raise OSError
  | Garbled e => Raise e
  | Holds doc => Ret doc
  end.

(** The body of the [try] block of [read_config]. *)
Definition read_config_try (f : config_file) : result value :=
  let? cfg := json_load f in
  let? present := py_contains "enable_lock_screen" cfg in
  if negb present
  then py_setitem cfg "enable_lock_screen" (PBool false)
  else Ret cfg.

(** [try: body except Exception: handler] *)
Definition try_except {A : Type} (body : result A) (handler : result A)
  : result A :=
  match body with
  | Ret a => Ret a
  | Raise _ => handler
  end.

Definition read_config (f : config_file) : result value :=
  if negb (path_exists f) then Ret default_config
  else try_except (read_config_try f) (Ret default_config).

(** ** The application object *)

(** [class CountdownState] *)
Definition IDLE : string := "idle".
Definition RUNNING : string := "running".
Definition PAUSED : string := "paused".
Definition LOCKED_PAUSED : string := "locked_paused".

(** [class Phase] *)
Definition USE : string := "使用时间".
Definition REST : string := "休息时间".

(** [tk.NORMAL], [tk.DISABLED] *)
Inductive tkstate : Type :=
| NORMAL
| DISABLED.

Record button : Type := {
  btn_text : string;
  btn_state : tkstate
}.

(** The Tk variables that [save_settings] reads. *)
Record UiVars : Type := {
  use_seconds_var : Z;
  rest_seconds_var : Z;
  popup_w_var : Z;
  popup_h_var : Z;
  video_path_var : string;
  auto_start_var : bool;
  win_autostart_var : bool;
  tray_var : bool;
  lock_screen_var : bool
}.

(** A popup opened by [_show_media_popup_and_continue], with the size asked
    for in the configuration, and whether the function got as far as its
    button. *)
Record popup : Type := {
  pop_fullscreen : bool;
  pop_width : Z;
  pop_height : Z;
  pop_button : bool
}.

(** The last popup opened gets its button. *)
Definition add_button (ps : list popup) : list popup :=
  match ps with
  | [] => []
  | p :: rest =>
      {| pop_fullscreen := pop_fullscreen p; pop_width := pop_width p;
         pop_height := pop_height p; pop_button := true |} :: rest
  end.

(** What the handlers do to the outside, in order. [PhaseComplete] marks
    the branch of [_tick] that the source comments "Phase complete". *)
Inductive effect : Type :=
| PhaseComplete (ended : string)
| Toast (title message : string)
| LockComputer.

Record App : Type := {
  config_data : value;
  current_phase : string;
  remaining_seconds : Z;
  state : string;
  (** [self._toaster is not None] *)
  toaster : bool;
  start_btn : button;
  pause_btn : button;
  vars : UiVars;
  (** the [after(1000, self._tick)] callbacks that have not fired yet;
      nothing in the source cancels one *)
  scheduled_ticks : nat;
  (** the open popups, the last opened first *)
  popups : list popup;
  effects : list effect;
  (** [CONFIG_PATH] on disk, and whether it can be opened for writing *)
  disk : config_file;
  writable : bool
}.

Definition set_config_data (v : value) (s : App) : App :=
  {| config_data := v; current_phase := current_phase s;
     remaining_seconds := remaining_seconds s; state := state s;
     toaster := toaster s; start_btn := start_btn s;
     pause_btn := pause_btn s; vars := vars s;
     scheduled_ticks := scheduled_ticks s; popups := popups s;
     effects := effects s; disk := disk s; writable := writable s |}.

Definition set_current_phase (v : string) (s : App) : App :=
  {| config_data := config_data s; current_phase := v;
     remaining_seconds := remaining_seconds s; state := state s;
     toaster := toaster s; start_btn := start_btn s;
     pause_btn := pause_btn s; vars := vars s;
     scheduled_ticks := scheduled_ticks s; popups := popups s;
     effects := effects s; disk := disk s; writable := writable s |}.

Definition set_remaining_seconds (v : Z) (s : App) : App :=
  {| config_data := config_data s; current_phase := current_phase s;
     remaining_seconds := v; state := state s;
     toaster := toaster s; start_btn := start_btn s;
     pause_btn := pause_btn s; vars := vars s;
     scheduled_ticks := scheduled_ticks s; popups := popups s;
     effects := effects s; disk := disk s; writable := writable s |}.

Definition set_state (v : string) (s : App) : App :=
  {| config_data := config_data s; current_phase := current_phase s;
     remaining_seconds := remaining_seconds s; state := v;
     toaster := toaster s; start_btn := start_btn s;
     pause_btn := pause_btn s; vars := vars s;
     scheduled_ticks := scheduled_ticks s; popups := popups s;
     effects := effects s; disk := disk s; writable := writable s |}.

Definition set_start_btn (v : button) (s : App) : App :=
  {| config_data := config_data s; current_phase := current_phase s;
     remaining_seconds := remaining_seconds s; state := state s;
     toaster := toaster s; start_btn := v;
     pause_btn := pause_btn s; vars := vars s;
     scheduled_ticks := scheduled_ticks s; popups := popups s;
     effects := effects s; disk := disk s; writable := writable s |}.

Definition set_pause_btn (v : button) (s : App) : App :=
  {| config_data := config_data s; current_phase := current_phase s;
     remaining_seconds := remaining_seconds s; state := state s;
     toaster := toaster s; start_btn := start_btn s;
     pause_btn := v; vars := vars s;
     scheduled_ticks := scheduled_ticks s; popups := popups s;
     effects := effects s; disk := disk s; writable := writable s |}.

Definition set_vars (v : UiVars) (s : App) : App :=
  {| config_data := config_data s; current_phase := current_phase s;
     remaining_seconds := remaining_seconds s; state := state s;
     toaster := toaster s; start_btn := start_btn s;
     pause_btn := pause_btn s; vars := v;
     scheduled_ticks := scheduled_ticks s; popups := popups s;
     effects := effects s; disk := disk s; writable := writable s |}.

Definition set_scheduled_ticks (v : nat) (s : App) : App :=
  {| config_data := config_data s; current_phase := current_phase s;
     remaining_seconds := remaining_seconds s; state := state s;
     toaster := toaster s; start_btn := start_btn s;
     pause_btn := pause_btn s; vars := vars s;
     scheduled_ticks := v; popups := popups s;
     effects := effects s; disk := disk s; writable := writable s |}.

Definition set_popups (v : list popup) (s : App) : App :=
  {| config_data := config_data s; current_phase := current_phase s;
     remaining_seconds := remaining_seconds s; state := state s;
     toaster := toaster s; start_btn := start_btn s;
     pause_btn := pause_btn s; vars := vars s;
     scheduled_ticks := scheduled_ticks s; popups := v;
     effects := effects s; disk := disk s; writable := writable s |}.

Definition set_effects (v : list effect) (s : App) : App :=
  {| config_data := config_data s; current_phase := current_phase s;
     remaining_seconds := remaining_seconds s; state := state s;
     toaster := toaster s; start_btn := start_btn s;
     pause_btn := pause_btn s; vars := vars s;
     scheduled_ticks := scheduled_ticks s; popups := popups s;
     effects := v; disk := disk s; writable := writable s |}.

Definition set_disk (v : config_file) (s : App) : App :=
  {| config_data := config_data s; current_phase := current_phase s;
     remaining_seconds := remaining_seconds s; state := state s;
     toaster := toaster s; start_btn := start_btn s;
     pause_btn := pause_btn s; vars := vars s;
     scheduled_ticks := scheduled_ticks s; popups := popups s;
     effects := effects s; disk := v; writable := writable s |}.

(** The Timer Session of the specification. *)
Definition session (s : App) : string * string * Z :=
  (current_phase s, state s, remaining_seconds s).

(** ** Handlers: computations over the object that return or raise *)

Definition M (A : Type) : Type := App -> result A * App.

Definition ret {A : Type} (a : A) : M A := fun s => (Ret a, s).

Definition raise {A : Type} (e : exn) : M A := fun s => (Raise e, s).

Definition bind {A B : Type} (m : M A) (k : A -> M B) : M B :=
  fun s =>
    match m s with
    | (Ret a, s') => k a s'
    | (Raise e, s') => (Raise e, s')
    end.

Definition lift {A : Type} (r : result A) : M A := fun s => (r, s).

Definition gets {A : Type} (f : App -> A) : M A := fun s => (Ret (f s), s).

Definition modify (f : App -> App) : M unit := fun s => (Ret tt, f s).

(** The object a handler leaves behind, returned or raised. *)
Definition exec {A : Type} (m : M A) (s : App) : App := snd (m s).

(** Whether the handler returned. *)
Definition returns {A : Type} (m : M A) (s : App) : bool :=
  match fst (m s) with
  | Ret _ => true
  | Raise _ => false
  end.

Notation "x <- m ;; k" := (bind m (fun x => k))
  (at level 61, m at next level, right associativity).
Notation "m ;; k" := (bind m (fun _ => k))
  (at level 61, right associativity).

(** [self._update_labels()] rewrites the two display variables from the
    session; the display is not part of the object modelled here. *)
Definition _update_labels : M unit := ret tt.

Definition emit (e : effect) : M unit :=
  modify (fun s => set_effects (effects s ++ [e])%list s).

(** [self.after(1000, self._tick)] *)
Definition after_1000_tick : M unit :=
  modify (fun s => set_scheduled_ticks (S (scheduled_ticks s)) s).

(** [widget.config(...)] *)
Definition start_btn_config (st : tkstate) : M unit :=
  modify (fun s =>
    set_start_btn {| btn_text := btn_text (start_btn s); btn_state := st |} s).

Definition pause_btn_config_text (t : string) : M unit :=
  modify (fun s =>
    set_pause_btn {| btn_text := t; btn_state := btn_state (pause_btn s) |} s).

Definition pause_btn_config (st : tkstate) (t : string) : M unit :=
  modify (set_pause_btn {| btn_text := t; btn_state := st |}).

Definition _notify_phase_complete : M unit :=
  cfg <- gets config_data ;;
  enabled <- lift (get_bool cfg "enable_toast" true) ;;
  has_toaster <- gets toaster ;;
  if enabled && has_toaster then
    phase <- gets current_phase ;;
    let title := "倒计时结束" in
    let next_phase_name :=
      if String.eqb phase USE then "休息时间" else "使用时间" in
    emit (Toast title ("即将进入：" ++ next_phase_name))
  else ret tt.

(** [video_path and os.path.exists(video_path)], which
    [_show_media_popup_and_continue] evaluates once inside a [try] and once
    more outside: a value that is false is not looked up; of the others
    [os.path.exists] raises TypeError for what is neither a path nor a file
    descriptor, and OverflowError for an integer that is no C int. Whether a
    path exists only chooses what the popup shows. *)
Definition video_path_check (video_path : value) : result unit :=
  if py_bool video_path then
    match video_path with
    | PFloat _ | PList _ | PDict _ => Raise TypeError
    | PInt z =>
        if (-2147483648 <=? z)%Z && (z <=? 2147483647)%Z then Ret tt
        else Raise OverflowError
    | _ => Ret tt
    end
  else Ret tt.

(** The decisions of [_show_media_popup_and_continue] and the popup it
    opens: the window first, the button last, and between them the look at
    the video path that can raise; the video backends that fill the popup
    are left out. *)
Definition _show_media_popup_and_continue : M unit :=
  cfg <- gets config_data ;;
  width <- lift (get_int cfg "popup_width" 600) ;;
  height <- lift (get_int cfg "popup_height" 400) ;;
  video_path <- lift (py_get cfg "video_path" (PStr "")) ;;
  phase <- gets current_phase ;;
  let next_phase := if String.eqb phase USE then REST else USE in
  lock <- lift (get_bool cfg "enable_lock_screen" false) ;;
  let enable_lock_for_rest := lock && String.eqb phase USE in
  fs <- lift (get_bool cfg "fullscreen_rest" false) ;;
  let fullscreen :=
    fs && String.eqb next_phase REST && negb enable_lock_for_rest in
  modify (fun s =>
    set_popups ({| pop_fullscreen := fullscreen; pop_width := width;
                   pop_height := height; pop_button := false |}
                :: popups s) s) ;;
  lift (video_path_check video_path) ;;
  modify (fun s => set_popups (add_button (popups s)) s).

Definition _tick : M unit :=
  st <- gets state ;;
  if negb (String.eqb st RUNNING) then ret tt
  else
    _update_labels ;;
    remaining <- gets remaining_seconds ;;
    if (remaining <=? 0)%Z then
      phase <- gets current_phase ;;
      emit (PhaseComplete phase) ;;
      modify (set_state IDLE) ;;
      start_btn_config NORMAL ;;
      pause_btn_config DISABLED "暂停" ;;
      _notify_phase_complete ;;
      _show_media_popup_and_continue
    else
      modify (set_remaining_seconds (remaining - 1)) ;;
      after_1000_tick.

Definition start_countdown : M unit :=
  st <- gets state ;;
  if String.eqb st RUNNING then ret tt
  else
    phase <- gets current_phase ;;
    remaining <- gets remaining_seconds ;;
    cfg <- gets config_data ;;
    (if String.eqb phase USE then
       if (remaining <=? 0)%Z then
         v <- lift (get_int cfg "use_seconds" 1500) ;;
         modify (set_remaining_seconds v)
       else modify (set_remaining_seconds remaining)
     else
       if (remaining <=? 0)%Z then
         v <- lift (get_int cfg "rest_seconds" 300) ;;
         modify (set_remaining_seconds v)
       else modify (set_remaining_seconds remaining)) ;;
    modify (set_state RUNNING) ;;
    start_btn_config DISABLED ;;
    pause_btn_config NORMAL "暂停" ;;
    _tick.

Definition toggle_pause : M unit :=
  st <- gets state ;;
  if String.eqb st RUNNING then
    modify (set_state PAUSED) ;;
    pause_btn_config_text "继续"
  else if String.eqb st PAUSED then
    modify (set_state RUNNING) ;;
    pause_btn_config_text "暂停" ;;
    _tick
  else ret tt.

Definition reset_countdown : M unit :=
  modify (set_state IDLE) ;;
  modify (set_current_phase USE) ;;
  cfg <- gets config_data ;;
  v <- lift (get_int cfg "use_seconds" 1500) ;;
  modify (set_remaining_seconds v) ;;
  _update_labels ;;
  start_btn_config NORMAL ;;
  pause_btn_config DISABLED "暂停".

Definition _on_screen_lock : M unit :=
  phase <- gets current_phase ;;
  st <- gets state ;;
  if String.eqb phase REST && String.eqb st RUNNING then
    modify (set_state LOCKED_PAUSED) ;;
    _update_labels ;;
    pause_btn_config DISABLED "继续 (已锁屏)" ;;
    start_btn_config DISABLED
  else ret tt.

Definition _on_screen_unlock : M unit :=
  phase <- gets current_phase ;;
  st <- gets state ;;
  (if String.eqb phase USE && String.eqb st LOCKED_PAUSED then
     modify (set_state RUNNING) ;;
     start_countdown
   else if String.eqb phase REST && String.eqb st LOCKED_PAUSED then
     modify (set_state RUNNING) ;;
     start_countdown
   else ret tt) ;;
  pause <- gets pause_btn ;;
  (if String.eqb (btn_text pause) "继续 (已锁屏)"
   then pause_btn_config NORMAL "暂停"
   else ret tt) ;;
  _update_labels.

(** [_lock_computer] asks the platform to lock the session and reports a
    failure in a message box; it never raises. *)
Definition _lock_computer : M unit := emit LockComputer.

(** The command of the popup's button. The popup it closes is the one that
    holds the grab, the last opened. *)
Definition _close_popup_and_start_next : M unit :=
  phase <- gets current_phase ;;
  let next_phase := if String.eqb phase USE then REST else USE in
  cfg <- gets config_data ;;
  lock <- lift (get_bool cfg "enable_lock_screen" false) ;;
  let enable_lock_for_rest := lock && String.eqb phase USE in
  modify (fun s => set_popups (tl (popups s)) s) ;;
  modify (set_current_phase next_phase) ;;
  (if String.eqb next_phase REST then
     v <- lift (get_int cfg "rest_seconds" 300) ;;
     modify (set_remaining_seconds v)
   else
     v <- lift (get_int cfg "use_seconds" 1500) ;;
     modify (set_remaining_seconds v)) ;;
  _update_labels ;;
  if enable_lock_for_rest then
    _lock_computer ;;
    modify (set_state RUNNING) ;;
    start_btn_config DISABLED ;;
    pause_btn_config DISABLED "暂停 (已锁屏)" ;;
    _tick
  else start_countdown.

(** [write_config(cfg)]: [open(CONFIG_PATH, "w")] raises when the file
    cannot be opened for writing. *)
Definition write_config (cfg : value) : M unit :=
  ok <- gets writable ;;
  if ok then modify (set_disk (Holds cfg)) else raise OSError.

(** [save_settings]; the registry entry, the message boxes and the tray
    restart touch nothing of the object modelled here. *)
Definition save_settings : M unit :=
  v <- gets vars ;;
  let use_seconds := use_seconds_var v in
  let rest_seconds := rest_seconds_var v in
  let cfg : value :=
    PDict [ ("use_seconds", PInt use_seconds);
            ("rest_seconds", PInt rest_seconds);
            ("popup_width", PInt (popup_w_var v));
            ("popup_height", PInt (popup_h_var v));
            ("video_path", PStr (video_path_var v));
            ("auto_start_countdown", PBool (auto_start_var v));
            ("windows_autostart", PBool (win_autostart_var v));
            ("enable_tray", PBool (tray_var v));
            ("enable_lock_screen", PBool (lock_screen_var v)) ] in
  write_config cfg ;;
  modify (set_config_data cfg) ;;
  reset_countdown.

(** [_apply_config_to_ui] *)
Definition _apply_config_to_ui : M unit :=
  cfg <- gets config_data ;;
  u <- lift (get_int cfg "use_seconds" 1500) ;;
  let use_sec := Z.max 1 u in
  r <- lift (get_int cfg "rest_seconds" 300) ;;
  let rest_sec := Z.max 1 r in
  w <- lift (get_int cfg "popup_width" 600) ;;
  h <- lift (get_int cfg "popup_height" 400) ;;
  video <- lift (py_get cfg "video_path" (PStr "")) ;;
  auto <- lift (get_bool cfg "auto_start_countdown" true) ;;
  win <- lift (get_bool cfg "windows_autostart" false) ;;
  tray <- lift (get_bool cfg "enable_tray" true) ;;
  lock <- lift (get_bool cfg "enable_lock_screen" false) ;;
  modify (set_vars {| use_seconds_var := use_sec;
                      rest_seconds_var := rest_sec;
                      popup_w_var := w;
                      popup_h_var := h;
                      video_path_var := tk_str video;
                      auto_start_var := auto;
                      win_autostart_var := win;
                      tray_var := tray;
                      lock_screen_var := lock |}) ;;
  modify (set_current_phase USE) ;;
  v <- lift (get_int cfg "use_seconds" 1500) ;;
  modify (set_remaining_seconds v) ;;
  _update_labels.

(** The variables as [_build_ui] creates them. *)
Definition built_vars : UiVars :=
  {| use_seconds_var := 1500; rest_seconds_var := 300;
     popup_w_var := 600; popup_h_var := 400; video_path_var := "";
     auto_start_var := true; win_autostart_var := false;
     tray_var := true; lock_screen_var := false |}.

(** [App.__init__], up to the automatic start: an exception there ends the
    program before there is an object. *)
Definition App__init__ (f : config_file) (has_toaster can_write : bool)
  : result App :=
  let? cfg := read_config f in
  let? remaining := get_int cfg "use_seconds" 1500 in
  let self :=
    {| config_data := cfg; current_phase := USE;
       remaining_seconds := remaining; state := IDLE;
       toaster := has_toaster;
       start_btn := {| btn_text := "开始"; btn_state := NORMAL |};
       pause_btn := {| btn_text := "暂停"; btn_state := DISABLED |};
       vars := built_vars; scheduled_ticks := 0; popups := [];
       effects := []; disk := f; writable := can_write |} in
  let body : M unit :=
    _apply_config_to_ui ;;
    cfg <- gets config_data ;;
    auto <- lift (get_bool cfg "auto_start_countdown" true) ;;
    if auto then start_countdown else ret tt in
  match body self with
  | (Ret _, s) => Ret s
  | (Raise e, _) => Raise e
  end.

(** ** The event loop *)

(** What the main loop delivers to the object: the three commands (from
    the buttons or the tray menu), a scheduled tick, the session
    notifications of the operating system, and the popup's button. *)
Inductive event : Type :=
| Start
| PauseOrResume
| ResetCmd
| Tick
| Lock
| Unlock
| Acknowledge.

(** A scheduled tick fires only when one is scheduled, and the popup's
    button is pressed only when the popup opened last, which holds the
    grab, has one. *)
Definition handler (e : event) : M unit :=
  match e with
  | Start => start_countdown
  | PauseOrResume => toggle_pause
  | ResetCmd => reset_countdown
  | Tick =>
      n <- gets scheduled_ticks ;;
      match n with
      | O => ret tt
      | S n' => modify (set_scheduled_ticks n') ;; _tick
      end
  | Lock => _on_screen_lock
  | Unlock => _on_screen_unlock
  | Acknowledge =>
      ps <- gets popups ;;
      match ps with
      | [] => ret tt
      | p :: _ => if pop_button p then _close_popup_and_start_next else ret tt
      end
  end.

(** Tk reports an exception raised by a callback and goes on with the
    loop: the object stays as the callback left it. *)
Definition deliver (e : event) (s : App) : App := exec (handler e) s.

Fixpoint run (es : list event) (s : App) : App :=
  match es with
  | [] => s
  | e :: es' => run es' (deliver e s)
  end.

End Program.

(** ** An interpreter to run the handlers on

    No float occurs in it, and [int(s)] reads a plain decimal literal. *)
Definition decimal_interp : Interp :=
  {| pyfloat := Empty_set;
     int_of_float := fun f => match f with end;
     bool_of_float := fun f => match f with end;
     int_of_str := fun s =>
       match NilZero.int_of_string s with
       | Some d => Ret (Z.of_int d)
       | None => Raise ValueError
       end;
     tk_str := fun v => match v with PStr s => s | _ => "" end |}.

(** A configuration file with the two durations, every toggle off. *)
Definition durations_file {I : Interp} (use_seconds rest_seconds : Z)
  : config_file :=
  Holds (PDict [ ("use_seconds", PInt use_seconds);
                 ("rest_seconds", PInt rest_seconds);
                 ("auto_start_countdown", PBool false);
                 ("enable_tray", PBool false) ]).

(** The object [App.__init__] builds from that file, with a toaster and a
    writable configuration path (see [init_durations_file]). *)
Definition fresh_app {I : Interp} (use_seconds rest_seconds : Z) : App :=
  {| config_data :=
       PDict [ ("use_seconds", PInt use_seconds);
               ("rest_seconds", PInt rest_seconds);
               ("auto_start_countdown", PBool false);
               ("enable_tray", PBool false);
               ("enable_lock_screen", PBool false) ];
     current_phase := USE;
     remaining_seconds := use_seconds;
     state := IDLE;
     toaster := true;
     start_btn := {| btn_text := "开始"; btn_state := NORMAL |};
     pause_btn := {| btn_text := "暂停"; btn_state := DISABLED |};
     vars := {| use_seconds_var := Z.max 1 use_seconds;
                rest_seconds_var := Z.max 1 rest_seconds;
                popup_w_var := 600; popup_h_var := 400;
                video_path_var := tk_str (PStr "");
                auto_start_var := false; win_autostart_var := false;
                tray_var := false; lock_screen_var := false |};
     scheduled_ticks := 0;
     popups := [];
     effects := [];
     disk := durations_file use_seconds rest_seconds;
     writable := true |}.


(** A session locked during the rest phase: one second of use, the popup
    acknowledged, the lock signal, and then the tick that was scheduled
    before the lock. *)
Definition rest_locked {I : Interp} : App :=
  run [Start; Tick; Acknowledge; Lock; Tick] (fresh_app 1 5).

(** A running session of five seconds, just started. *)
Definition just_started {I : Interp} : App := run [Start] (fresh_app 5 2).

(** A use phase of one second that has completed, its popup still open. *)
Definition use_completed {I : Interp} : App :=
  run [Start; Tick] (fresh_app 1 5).


(** The four values of [CountdownState]. *)
Definition run_states : list string := [IDLE; RUNNING; PAUSED; LOCKED_PAUSED].

(** Both configured durations convert to integers that are at least 1. *)
Definition durations_ok {I : Interp} (cfg : value) : Prop :=
  exists u r,
    get_int cfg "use_seconds" 1500 = Ret u /\ 1 <= u /\
    get_int cfg "rest_seconds" 300 = Ret r /\ 1 <= r.

(** The invariant of the session: no negative remaining time, one of the
    four run states, and durations that stay configured. *)
Definition session_ok {I : Interp} (s : App) : Prop :=
  0 <= remaining_seconds s
  /\ In (state s) run_states
  /\ durations_ok (config_data s).

(** The commands of the engine and the scheduled tick. *)
Definition engine_event (e : event) : bool :=
  match e with
  | Start | PauseOrResume | ResetCmd | Tick => true
  | Lock | Unlock | Acknowledge => false
  end.

(** The pairs of run state and event that the transition table of the
    engine lists; the popup's button belongs to the coordinator. *)
Definition listed_transition {I : Interp} (s : App) (e : event) : bool :=
  match e with
  | Start => String.eqb (state s) IDLE
  | PauseOrResume =>
      String.eqb (state s) RUNNING || String.eqb (state s) PAUSED
  | ResetCmd => true
  | Tick => String.eqb (state s) RUNNING
  | Lock => String.eqb (state s) RUNNING && String.eqb (current_phase s) REST
  | Unlock => String.eqb (state s) LOCKED_PAUSED
  | Acknowledge => true
  end.

(** The phase completions among the effects: the phases that ended, in
    order. *)
Fixpoint completed (l : list effect) : list string :=
  match l with
  | [] => []
  | PhaseComplete phase :: l' => phase :: completed l'
  | _ :: l' => completed l'
  end.

(** ** Further handlers and observations *)

Section MoreHandlers.
Context {I : Interp}.

Notation "x <- m ;; k" := (bind m (fun x => k))
  (at level 61, m at next level, right associativity).
Notation "m ;; k" := (bind m (fun _ => k))
  (at level 61, right associativity).

(** [ignore_close], which [_show_media_popup_and_continue] installs for the
    window manager's close request on the popup: a fullscreen popup ignores
    it, any other popup is destroyed, and nothing else happens. *)
Definition ignore_close : M unit :=
  ps <- gets popups ;;
  match ps with
  | [] => ret tt
  | p :: rest => if pop_fullscreen p then ret tt else modify (set_popups rest)
  end.

End MoreHandlers.

(** The lock actions among the effects. *)
Fixpoint lock_actions (l : list effect) : nat :=
  match l with
  | [] => 0
  | LockComputer :: l' => S (lock_actions l')
  | _ :: l' => lock_actions l'
  end.

(** The toast messages among the effects. *)
Fixpoint toasts (l : list effect) : list string :=
  match l with
  | [] => []
  | Toast _ message :: l' => message :: toasts l'
  | _ :: l' => toasts l'
  end.


(** A pause followed by a resume. *)
Definition pause_resume : list event := [PauseOrResume; PauseOrResume].

(** What the laws below observe of the object: the live configuration, the
    session, the number of scheduled ticks and of open popups, the phases
    completed so far and the number of lock actions. *)
Definition observed {I : Interp} (d : list (string * value))
    (st phase : string) (remaining : Z) (ticks open : nat)
    (done : list string) (locks : nat) (s : App) : Prop :=
  config_data s = PDict d
  /\ state s = st
  /\ current_phase s = phase
  /\ remaining_seconds s = remaining
  /\ scheduled_ticks s = ticks
  /\ List.length (popups s) = open
  /\ completed (effects s) = done
  /\ lock_actions (effects s) = locks.



(** The other phase, as both popup functions compute it. *)
Definition next_phase (phase : string) : string :=
  if String.eqb phase USE then REST else USE.

(** Whether the popup's button arms the lock action, for a configuration
    dict [d] and the phase that ended. *)
Definition lock_for_rest {I : Interp} (d : list (string * value))
    (phase : string) : bool :=
  py_bool (match dict_get "enable_lock_screen" d with
           | Some v => v
           | None => PBool false
           end)
  && String.eqb phase USE.

(** No toaster, and the toast messages so far. *)
Definition toastless {I : Interp} (msgs : list string) (s : App) : Prop :=
  toaster s = false /\ toasts (effects s) = msgs.

(** The live configuration is the dict [d], and the lock actions so far. *)
Definition lock_count {I : Interp} (d : list (string * value)) (n : nat)
    (s : App) : Prop :=
  config_data s = PDict d /\ lock_actions (effects s) = n.

(** The events that are neither the popup's button nor a reset. *)
Definition keeps_phase (e : event) : bool :=
  match e with
  | Acknowledge | ResetCmd => false
  | _ => true
  end.

(** Whether a JSON document is an object. *)
Definition is_dict {I : Interp} (doc : value) : bool :=
  match doc with
  | PDict _ => true
  | _ => false
  end.



(** ** Computations over any state that return or raise *)

Definition Act (S A : Type) : Type := S -> result A * S.

Definition pure {S A : Type} (a : A) : Act S A := fun s => (Ret a, s).

Definition throw {S A : Type} (e : exn) : Act S A := fun s => (Raise e, s).

Definition and_then {S A B : Type} (m : Act S A) (k : A -> Act S B)
  : Act S B :=
  fun s =>
    match m s with
    | (Ret a, s') => k a s'
    | (Raise e, s') => (Raise e, s')
    end.

Definition of_result {S A : Type} (r : result A) : Act S A := fun s => (r, s).

Definition read {S A : Type} (f : S -> A) : Act S A :=
  fun s => (Ret (f s), s).

Definition update {S : Type} (f : S -> S) : Act S unit :=
  fun s => (Ret tt, f s).

(** [try: body except Exception: handler]: what the body assigned before
    it raised stays assigned. *)
Definition try_catch {S A : Type} (body handler : Act S A) : Act S A :=
  fun s =>
    match body s with
    | (Ret a, s') => (Ret a, s')
    | (Raise _, s') => handler s'
    end.

Definition outcome {S A : Type} (m : Act S A) (s : S) : S := snd (m s).

(** ** The time selectors of the settings *)

(** [f"{z:02d}"]: the decimal digits of [z], behind a sign if it is
    negative, with a zero in front when that is a single character. *)
Definition fmt02d (z : Z) : string :=
  let digits := NilZero.string_of_int (Z.to_int z) in
  if (String.length digits <? 2)%nat then "0" ++ digits else digits.

(** [_format_seconds] *)
Definition _format_seconds (sec : Z) : string :=
  let sec := if (sec <? 0)%Z then 0 else sec in
  let m := sec / 60 in
  let s := sec mod 60 in
  let h := m / 60 in
  let m := m mod 60 in
  if negb (h =? 0)%Z
  then fmt02d h ++ ":" ++ fmt02d m ++ ":" ++ fmt02d s
  else fmt02d m ++ ":" ++ fmt02d s.

(** [text.split(sep)] for a separator of one character. *)
Fixpoint split_on (sep : ascii) (text : string) : list string :=
  match text with
  | EmptyString => [""]
  | String c rest =>
      if Ascii.eqb c sep then "" :: split_on sep rest
      else match split_on sep rest with
           | [] => [String c ""]
           | part :: parts => String c part :: parts
           end
  end.

(** The Tk variables of the selectors. An [IntVar] or [StringVar] is an
    object: the store lists their values in the order of creation, and a
    variable is its position there. The attributes of the application that
    hold an [IntVar] are names for positions, so that two names, or a name
    and a local variable of a closure, can stand for one object. *)
Record Ui : Type := {
  intvars : list Z;
  strvars : list string;
  attrs : list (string * nat)
}.

Definition empty_ui : Ui := {| intvars := []; strvars := []; attrs := [] |}.

(** What the closures [update_display] and [parse_and_apply_entry] of one
    call of [_create_time_selector] have captured. *)
Record selector : Type := {
  prefix : string;
  hours_var : nat;
  minutes_var : nat;
  seconds_var : nat;
  time_entry_var : nat
}.

Fixpoint set_nth {A : Type} (n : nat) (a : A) (l : list A) : list A :=
  match l, n with
  | [], _ => []
  | _ :: l', O => a :: l'
  | x :: l', S n' => x :: set_nth n' a l'
  end.

(** [tk.IntVar(value=v)] *)
Definition IntVar (v : Z) : Act Ui nat :=
  fun ui =>
    (Ret (List.length (intvars ui)),
     {| intvars := (intvars ui ++ [v])%list; strvars := strvars ui;
        attrs := attrs ui |}).

(** [tk.StringVar(value=v)] *)
Definition StringVar (v : string) : Act Ui nat :=
  fun ui =>
    (Ret (List.length (strvars ui)),
     {| intvars := intvars ui; strvars := (strvars ui ++ [v])%list;
        attrs := attrs ui |}).

(** [var.get()] and [var.set(v)] on an [IntVar] *)
Definition int_get (var : nat) : Act Ui Z :=
  read (fun ui => nth var (intvars ui) 0).

Definition int_set (var : nat) (v : Z) : Act Ui unit :=
  update (fun ui =>
    {| intvars := set_nth var v (intvars ui); strvars := strvars ui;
       attrs := attrs ui |}).

(** [var.set(v)] on a [StringVar] *)
Definition str_set (var : nat) (v : string) : Act Ui unit :=
  update (fun ui =>
    {| intvars := intvars ui; strvars := set_nth var v (strvars ui);
       attrs := attrs ui |}).

(** [setattr(self, name, var)] and [getattr(self, name)]: reading an
    attribute that was never set raises. *)
Definition setattr (name : string) (var : nat) : Act Ui unit :=
  update (fun ui =>
    {| intvars := intvars ui; strvars := strvars ui;
       attrs := dict_set name var (attrs ui) |}).

Definition getattr (name : string) : Act Ui nat :=
  fun ui =>
    match dict_get name (attrs ui) with
    | Some var => (Ret var, ui)
    | None => (Raise AttributeError, ui)
    end.

Section Selectors.
Context {I : Interp}.

Notation "x <- m ;; k" := (and_then m (fun x => k))
  (at level 61, m at next level, right associativity).
Notation "m ;; k" := (and_then m (fun _ => k))
  (at level 61, right associativity).

(** The closure [update_display]. *)
Definition update_display (sel : selector) : Act Ui unit :=
  h <- int_get (hours_var sel) ;;
  m <- int_get (minutes_var sel) ;;
  s <- int_get (seconds_var sel) ;;
  str_set (time_entry_var sel)
    (fmt02d h ++ ":" ++ fmt02d m ++ ":" ++ fmt02d s) ;;
  let total_seconds := h * 3600 + m * 60 + s in
  if String.eqb (prefix sel) "use" then
    var <- getattr "use_seconds_var" ;;
    int_set var total_seconds
  else
    var <- getattr "rest_seconds_var" ;;
    int_set var total_seconds.

(** The fields that [parse_and_apply_entry] reads from the stripped text of
    the entry: [HH:MM:SS] or [MM:SS], each converted with [int] and clamped,
    or the exception that ends the [try] block. *)
Definition entry_fields (text : string) : result (Z * Z * Z) :=
  let parts := split_on ":" text in
  let? fields :=
    match parts with
    | [ph; pm; ps] => Ret (ph, pm, ps)
    | [pm; ps] => Ret ("0", pm, ps)
    | _ => Raise ValueError
    end in
  let '(ph, pm, ps) := fields in
  let? h := int_of_str ph in
  let h := Z.max 0 (Z.min 23 h) in
  let? m := int_of_str pm in
  let m := Z.max 0 (Z.min 59 m) in
  let? s := int_of_str ps in
  let s := Z.max 0 (Z.min 59 s) in
  Ret (h, m, s).

(** The closure [parse_and_apply_entry]; [text] is the stripped text of the
    entry, [time_entry_var.get().strip()]. *)
Definition parse_and_apply_entry (sel : selector) (text : string)
  : Act Ui unit :=
  try_catch
    (fields <- of_result (entry_fields text) ;;
     let '(h, m, s) := fields in
     int_set (hours_var sel) h ;;
     int_set (minutes_var sel) m ;;
     int_set (seconds_var sel) s ;;
     update_display sel)
    (update_display sel).

(** [_create_time_selector(parent, prefix, default_minutes)], without the
    widgets; it returns what its closures have captured. *)
Definition _create_time_selector (prefix : string) (default_minutes : Z)
  : Act Ui selector :=
  let default_seconds := default_minutes * 60 in
  let total_seconds := default_seconds in
  let hours := total_seconds / 3600 in
  let minutes := (total_seconds / 60) mod 60 in
  let seconds := total_seconds mod 60 in
  (v <- IntVar hours ;; setattr (prefix ++ "_hours_var") v) ;;
  (v <- IntVar minutes ;; setattr (prefix ++ "_minutes_var") v) ;;
  (v <- IntVar seconds ;; setattr (prefix ++ "_seconds_var") v) ;;
  hours_var <- getattr (prefix ++ "_hours_var") ;;
  minutes_var <- getattr (prefix ++ "_minutes_var") ;;
  seconds_var <- getattr (prefix ++ "_seconds_var") ;;
  time_entry_var <- StringVar "00:00:00" ;;
  let sel :=
    {| prefix := prefix; hours_var := hours_var;
       minutes_var := minutes_var; seconds_var := seconds_var;
       time_entry_var := time_entry_var |} in
  update_display sel ;;
  pure sel.

(** The two selectors that [_build_ui] creates. *)
Definition build_selectors : Act Ui (selector * selector) :=
  use <- _create_time_selector "use" 25 ;;
  rest <- _create_time_selector "rest" 5 ;;
  pure (use, rest).

(** The variables that [_apply_config_to_ui] creates for the durations. *)
Definition apply_config_durations (cfg : value) : Act Ui unit :=
  u <- of_result (get_int cfg "use_seconds" 1500) ;;
  let use_sec := Z.max 1 u in
  r <- of_result (get_int cfg "rest_seconds" 300) ;;
  let rest_sec := Z.max 1 r in
  (v <- IntVar use_sec ;; setattr "use_seconds_var" v) ;;
  (v <- IntVar rest_sec ;; setattr "rest_seconds_var" v) ;;
  (v <- IntVar (use_sec / 60) ;; setattr "use_minutes_var" v) ;;
  (v <- IntVar (rest_sec / 60) ;; setattr "rest_minutes_var" v).

(** The selectors and the store as the constructor leaves them. *)
Definition built_ui (cfg : value) : result (selector * selector) * Ui :=
  (sels <- build_selectors ;;
   apply_config_durations cfg ;;
   pure sels) empty_ui.

(** The value [save_settings] reads from [self.use_seconds_var] or
    [self.rest_seconds_var]. *)
Definition duration_var (name : string) (ui : Ui) : option Z :=
  match dict_get name (attrs ui) with
  | Some var => Some (nth var (intvars ui) 0)
  | None => None
  end.

End Selectors.

(** The selectors of the use and of the rest duration, as [_build_ui]
    creates them on the empty store. *)
Definition use_selector : selector :=
  {| prefix := "use"; hours_var := 0; minutes_var := 1; seconds_var := 2;
     time_entry_var := 0 |}.

Definition rest_selector : selector :=
  {| prefix := "rest"; hours_var := 3; minutes_var := 4; seconds_var := 5;
     time_entry_var := 1 |}.

(** The attributes once the constructor is through: the duration and the
    minutes attributes name the variables of [_apply_config_to_ui]. *)
Definition built_attrs : list (string * nat) :=
  [ ("use_hours_var", 0%nat); ("use_minutes_var", 8%nat);
    ("use_seconds_var", 6%nat); ("rest_hours_var", 3%nat);
    ("rest_minutes_var", 9%nat); ("rest_seconds_var", 7%nat) ].

(** A store with the variables and attributes of the constructor, whatever
    the variables hold. *)
Definition settled (ui : Ui) : Prop :=
  attrs ui = built_attrs
  /\ List.length (intvars ui) = 10%nat
  /\ List.length (strvars ui) = 2%nat.

(** The text of the entry of a selector. *)
Definition entry_text (sel : selector) (ui : Ui) : string :=
  nth (time_entry_var sel) (strvars ui) "".

(** The hours, minutes and seconds variables of a selector. *)
Definition components (sel : selector) (ui : Ui) : Z * Z * Z :=
  (nth (hours_var sel) (intvars ui) 0,
   nth (minutes_var sel) (intvars ui) 0,
   nth (seconds_var sel) (intvars ui) 0).

(** [f"{h:02d}:{m:02d}:{s:02d}"] *)
Definition clock_text (h m s : Z) : string :=
  fmt02d h ++ ":" ++ fmt02d m ++ ":" ++ fmt02d s.

(** The characters of a two-digit field, none of them a colon. *)
Definition two_plain_chars (t : string) : bool :=
  match t with
  | String a (String b EmptyString) =>
      negb (Ascii.eqb a ":") && negb (Ascii.eqb b ":")
  | _ => false
  end.

(** ** The window, the tray icon and the session window *)

(** What the imports at the head of the module found. *)
Record platform : Type := {
  TRAY_AVAILABLE : bool;
  PIL_AVAILABLE : bool;
  WINDOWS_SCREEN_STATUS_AVAILABLE : bool
}.

(** The main window: on the screen, withdrawn, or destroyed, which ends
    [mainloop]. *)
Inductive window : Type :=
| Shown
| Withdrawn
| Destroyed.

Definition alive (w : window) : bool :=
  match w with
  | Destroyed => false
  | _ => true
  end.

(** An attribute that only some paths of the constructor assign. *)
Inductive slot (A : Type) : Type :=
| Unset
| Assigned (a : A).

Arguments Unset {A}.
Arguments Assigned {A} a.

(** What the window procedure is called with. *)
Inductive session_change : Type :=
| WTS_SESSION_LOCK
| WTS_SESSION_UNLOCK
| WTS_other.

Inductive message : Type :=
| WM_WTSSESSION_CHANGE (wparam : session_change)
| WM_other.

(** What the user does to a widget of the settings: a check box ticked or
    not, a number in a spin box, a text in the entry of the video path (or
    the path chosen in the file dialog), and the total that a time entry
    stores in its duration variable. *)
Inductive edit : Type :=
| AutoStartBox (b : bool)
| WinAutostartBox (b : bool)
| TrayBox (b : bool)
| LockScreenBox (b : bool)
| PopupWidthBox (z : Z)
| PopupHeightBox (z : Z)
| VideoEntry (t : string)
| UseTimeEntry (total : Z)
| RestTimeEntry (total : Z).

(** The Tk variables after an edit. *)
Definition apply_edit (e : edit) (v : UiVars) : UiVars :=
  {| use_seconds_var :=
       match e with UseTimeEntry z => z | _ => use_seconds_var v end;
     rest_seconds_var :=
       match e with RestTimeEntry z => z | _ => rest_seconds_var v end;
     popup_w_var :=
       match e with PopupWidthBox z => z | _ => popup_w_var v end;
     popup_h_var :=
       match e with PopupHeightBox z => z | _ => popup_h_var v end;
     video_path_var :=
       match e with VideoEntry t => t | _ => video_path_var v end;
     auto_start_var :=
       match e with AutoStartBox b => b | _ => auto_start_var v end;
     win_autostart_var :=
       match e with WinAutostartBox b => b | _ => win_autostart_var v end;
     tray_var := match e with TrayBox b => b | _ => tray_var v end;
     lock_screen_var :=
       match e with LockScreenBox b => b | _ => lock_screen_var v end |}.

(** What the main loop delivers to the whole program: an event of the
    countdown, the pending start of the tray, the save button, the close
    button of the window, the two entries of the tray menu that are not
    commands of the countdown, and an edit of the settings. *)
Inductive desk_event : Type :=
| Loop (e : event)
| StartTray
| Save
| CloseWindow
| MenuShow
| MenuQuit
| Edit (e : edit).

Section Shell.

Context {I : Interp}.

(** The object with what the countdown does not touch: the tray icon
    ([self._tray_icon is not None]), the pending [after(200,
    self._start_tray)], the handle of the hidden window that receives the
    session notifications, and the main window. *)
Record Desk : Type := {
  app : App;
  _tray_icon : bool;
  tray_start_pending : bool;
  hwnd : slot (option Z);
  root : window
}.

Definition set_app (v : App) (d : Desk) : Desk :=
  {| app := v; _tray_icon := _tray_icon d;
     tray_start_pending := tray_start_pending d; hwnd := hwnd d;
     root := root d |}.

Definition set_tray_icon (v : bool) (d : Desk) : Desk :=
  {| app := app d; _tray_icon := v;
     tray_start_pending := tray_start_pending d; hwnd := hwnd d;
     root := root d |}.

Definition set_tray_start_pending (v : bool) (d : Desk) : Desk :=
  {| app := app d; _tray_icon := _tray_icon d; tray_start_pending := v;
     hwnd := hwnd d; root := root d |}.

Definition set_hwnd (v : slot (option Z)) (d : Desk) : Desk :=
  {| app := app d; _tray_icon := _tray_icon d;
     tray_start_pending := tray_start_pending d; hwnd := v;
     root := root d |}.

Definition set_root (v : window) (d : Desk) : Desk :=
  {| app := app d; _tray_icon := _tray_icon d;
     tray_start_pending := tray_start_pending d; hwnd := hwnd d;
     root := v |}.

Variable pf : platform.

#[local] Notation "x <- m ;; k" := (and_then m (fun x => k))
  (at level 61, m at next level, right associativity).
#[local] Notation "m ;; k" := (and_then m (fun _ => k))
  (at level 61, right associativity).

(** A method of the countdown, run on the object inside. *)
Definition in_app {A : Type} (m : M A) : Act Desk A :=
  fun d => let (r, a) := m (app d) in (r, set_app a d).

(** [self.config_data.get(key, default)], as a truth value. *)
Definition config_flag (key : string) (default : bool) : Act Desk bool :=
  cfg <- read (fun d => config_data (app d)) ;;
  of_result (get_bool cfg key default).

(** [_start_tray]; the icon and its menu are built and its thread started
    where the flag is set. *)
Definition _start_tray : Act Desk unit :=
  tray <- config_flag "enable_tray" true ;;
  if negb (tray && TRAY_AVAILABLE pf && PIL_AVAILABLE pf) then pure tt
  else
    icon <- read _tray_icon ;;
    if icon then pure tt else update (set_tray_icon true).

(** [_stop_tray]: what [icon.stop()] raises is dropped. *)
Definition _stop_tray : Act Desk unit :=
  icon <- read _tray_icon ;;
  if icon then update (set_tray_icon false) else pure tt.

(** [_restart_tray_if_needed] *)
Definition _restart_tray_if_needed : Act Desk unit :=
  tray <- config_flag "enable_tray" true ;;
  if tray then
    icon <- read _tray_icon ;;
    if negb icon then _start_tray else pure tt
  else _stop_tray.

(** [self.hwnd]: reading an attribute that was never assigned raises. *)
Definition get_hwnd : Act Desk (option Z) :=
  h <- read hwnd ;;
  match h with
  | Unset => throw AttributeError
  | Assigned v => pure v
  end.

(** The truth value of a handle or [None]. *)
Definition handle_bool (h : option Z) : bool :=
  match h with
  | Some z => negb (z =? 0)%Z
  | None => false
  end.

(** [_quit_app]; what unregistering the hidden window raises is caught and
    printed. *)
Definition _quit_app : Act Desk unit :=
  _stop_tray ;;
  h <- get_hwnd ;;
  (if handle_bool h && WINDOWS_SCREEN_STATUS_AVAILABLE pf then pure tt
   else pure tt) ;;
  update (set_root Destroyed).

(** [_on_window_close]; what [show_toast] raises is dropped. *)
Definition _on_window_close : Act Desk unit :=
  tray <- config_flag "enable_tray" true ;;
  if tray && TRAY_AVAILABLE pf then
    update (set_root Withdrawn) ;;
    toast <- config_flag "enable_toast" true ;;
    has_toaster <- read (fun d => toaster (app d)) ;;
    if toast && has_toaster then
      in_app (emit (Toast "最小化到托盘" "应用在系统托盘运行"))
    else pure tt
  else _quit_app.

(** [_wnd_proc], where [after(0, ...)] runs its callback at once. *)
Definition _wnd_proc (msg : message) : Act Desk unit :=
  match msg with
  | WM_WTSSESSION_CHANGE WTS_SESSION_LOCK => in_app _on_screen_lock
  | WM_WTSSESSION_CHANGE WTS_SESSION_UNLOCK => in_app _on_screen_unlock
  | _ => pure tt
  end.

(** The end of [save_settings], which the countdown's part leaves out. *)
Definition save_button : Act Desk unit :=
  in_app save_settings ;;
  _restart_tray_if_needed.

(** The end of [App.__init__]: the hidden window for the session
    notifications, where [created] is what creating and registering it
    gives. *)
Definition register_session (created : result Z) : Act Desk unit :=
  if WINDOWS_SCREEN_STATUS_AVAILABLE pf then
    update (set_hwnd (Assigned None)) ;;
    match created with
    | Ret h => update (set_hwnd (Assigned (Some h)))
    | Raise _ => update (set_hwnd (Assigned None))
    end
  else pure tt.

(** [App.__init__] as a whole. The tray flag is read before the automatic
    start; neither changes the configuration. *)
Definition Desk__init__ (f : config_file) (has_toaster can_write : bool)
    (created : result Z) : result Desk :=
  let? a := App__init__ f has_toaster can_write in
  let? tray := get_bool (config_data a) "enable_tray" true in
  let self :=
    {| app := a; _tray_icon := false; tray_start_pending := tray;
       hwnd := Unset; root := Shown |} in
  match register_session created self with
  | (Ret _, d) => Ret d
  | (Raise e, _) => Raise e
  end.

(** The window procedure is called only for a window that exists. *)
Definition listening (d : Desk) : bool :=
  match hwnd d with
  | Assigned (Some _) => true
  | _ => false
  end.

Definition desk_handler (e : desk_event) : Act Desk unit :=
  match e with
  | Loop Lock => _wnd_proc (WM_WTSSESSION_CHANGE WTS_SESSION_LOCK)
  | Loop Unlock => _wnd_proc (WM_WTSSESSION_CHANGE WTS_SESSION_UNLOCK)
  | Loop ev => in_app (handler ev)
  | StartTray => update (set_tray_start_pending false) ;; _start_tray
  | Save => save_button
  | CloseWindow => _on_window_close
  | MenuShow => update (set_root Shown)
  | MenuQuit => _quit_app
  | Edit ed => in_app (modify (fun s => set_vars (apply_edit ed (vars s)) s))
  end.

(** Whether the loop can deliver the event: nothing after the window is
    destroyed, a session notification only to the hidden window, the
    start of the tray only while it is pending, the save and close buttons
    and the widgets of the settings only on a window that is shown, and a
    menu entry only of an icon. *)
Definition deliverable (e : desk_event) (d : Desk) : bool :=
  alive (root d) &&
  match e with
  | Loop Lock | Loop Unlock => listening d
  | Loop _ => true
  | StartTray => tray_start_pending d
  | Save | CloseWindow | Edit _ =>
      match root d with
      | Shown => true
      | _ => false
      end
  | MenuShow | MenuQuit => _tray_icon d
  end.

Definition desk_deliver (e : desk_event) (d : Desk) : Desk :=
  if deliverable e d then outcome (desk_handler e) d else d.

Definition desk_run (es : list desk_event) (d : Desk) : Desk :=
  fold_left (fun d e => desk_deliver e d) es d.

End Shell.

(** ** Platforms to run the program on *)

(** The tray packages without the modules for the session notifications,
    and every module there is. *)
Definition tray_only : platform :=
  {| TRAY_AVAILABLE := true; PIL_AVAILABLE := true;
     WINDOWS_SCREEN_STATUS_AVAILABLE := false |}.

Definition all_modules : platform :=
  {| TRAY_AVAILABLE := true; PIL_AVAILABLE := true;
     WINDOWS_SCREEN_STATUS_AVAILABLE := true |}.

(** ** More objects to run the handlers on *)

(** The object of [fresh_app] as the constructor builds it where there is
    no toaster. *)
Definition fresh_app_quiet {I : Interp} (use_seconds rest_seconds : Z)
  : App :=
  {| config_data := config_data (fresh_app use_seconds rest_seconds);
     current_phase := USE;
     remaining_seconds := use_seconds;
     state := IDLE;
     toaster := false;
     start_btn := {| btn_text := "开始"; btn_state := NORMAL |};
     pause_btn := {| btn_text := "暂停"; btn_state := DISABLED |};
     vars := vars (fresh_app use_seconds rest_seconds);
     scheduled_ticks := 0;
     popups := [];
     effects := [];
     disk := durations_file use_seconds rest_seconds;
     writable := true |}.

(** A configuration file that leaves the tray on, and the program the
    constructor builds from it with the slot [h] for the handle of the
    hidden window. *)
Definition tray_file {I : Interp} : config_file :=
  Holds (PDict [ ("use_seconds", PInt 5); ("rest_seconds", PInt 2);
                 ("auto_start_countdown", PBool false) ]).

Definition tray_desk {I : Interp} (h : slot (option Z)) : Desk :=
  {| app :=
       {| config_data :=
            PDict [ ("use_seconds", PInt 5); ("rest_seconds", PInt 2);
                    ("auto_start_countdown", PBool false);
                    ("enable_lock_screen", PBool false) ];
          current_phase := USE;
          remaining_seconds := 5;
          state := IDLE;
          toaster := true;
          start_btn := {| btn_text := "开始"; btn_state := NORMAL |};
          pause_btn := {| btn_text := "暂停"; btn_state := DISABLED |};
          vars := {| use_seconds_var := 5; rest_seconds_var := 2;
                     popup_w_var := 600; popup_h_var := 400;
                     video_path_var := tk_str (PStr "");
                     auto_start_var := false; win_autostart_var := false;
                     tray_var := true; lock_screen_var := false |};
          scheduled_ticks := 0;
          popups := [];
          effects := [];
          disk := tray_file;
          writable := true |};
     _tray_icon := false;
     tray_start_pending := true;
     hwnd := h;
     root := Shown |}.

(** * Properties *)

Section Proofs.
Context {I : Interp}.

Ltac handlers :=
  unfold deliver, handler, exec, returns, save_settings,
    _close_popup_and_start_next, _on_screen_unlock, _on_screen_lock,
    reset_countdown, toggle_pause, start_countdown, _tick,
    _show_media_popup_and_continue, _notify_phase_complete,
    _lock_computer, _update_labels, emit, after_1000_tick,
    start_btn_config, pause_btn_config, pause_btn_config_text,
    write_config, bind, lift, gets, modify, ret, raise.

Ltac case_result :=
  match goal with
  | |- context [match ?r with Ret _ => _ | Raise _ => _ end] =>
      destruct r eqn:?
  | |- context [if ?b then _ else _] => destruct b eqn:?
  end.

Lemma completed_app (l1 l2 : list effect) :
  completed (l1 ++ l2)%list = (completed l1 ++ completed l2)%list.
Proof.
  induction l1 as [| e l1 IH]; simpl; [reflexivity |].
  destruct e; simpl; rewrite IH; reflexivity.
Qed.

(** *** The three cases of [_tick] *)

Lemma tick_not_running (s : App) :
  String.eqb (state s) RUNNING = false -> _tick s = (Ret tt, s).
Proof.
  intros H. handlers. cbn. rewrite H. reflexivity.
Qed.

Lemma tick_decrements (s : App) :
  state s = RUNNING -> 0 < remaining_seconds s ->
  _tick s =
    (Ret tt,
     set_scheduled_ticks (S (scheduled_ticks s))
       (set_remaining_seconds (remaining_seconds s - 1) s)).
Proof.
  intros H Hpos. handlers. cbn. rewrite H. cbn.
  destruct (Z.leb_spec (remaining_seconds s) 0); [lia | reflexivity].
Qed.

Lemma tick_completes (s : App) :
  state s = RUNNING -> remaining_seconds s <= 0 ->
  state (exec _tick s) = IDLE
  /\ current_phase (exec _tick s) = current_phase s
  /\ remaining_seconds (exec _tick s) = remaining_seconds s
  /\ scheduled_ticks (exec _tick s) = scheduled_ticks s
  /\ config_data (exec _tick s) = config_data s
  /\ exists rest,
       effects (exec _tick s)
         = (effects s ++ PhaseComplete (current_phase s) :: rest)%list
       /\ completed rest = [].
Proof.
  intros H Hle. handlers. cbn. rewrite H. cbn.
  destruct (Z.leb_spec (remaining_seconds s) 0); [| lia].
  cbn. repeat (case_result; cbn);
    repeat split; try reflexivity;
    eexists; (split; [rewrite <- ?app_assoc; reflexivity | reflexivity]).
Qed.

(** The look at the video path returns on every string. *)
Lemma video_path_check_str (t : string) : video_path_check (PStr t) = Ret tt.
Proof.
  unfold video_path_check. destruct (py_bool (PStr t)); reflexivity.
Qed.

(** [fresh_app] is what the constructor builds from [durations_file]. *)
Lemma init_durations_file (u r : Z) :
  App__init__ (durations_file u r) true true = Ret (fresh_app u r).
Proof. reflexivity. Qed.

(** *** Redundant commands *)

(** C8. Calling [start_countdown] while the run state is RUNNING returns
    and leaves the whole object, so the whole Timer Session (phase, run
    state, remaining seconds), unchanged; calling [toggle_pause] while the
    run state is IDLE does the same. *)
Theorem redundant_command_is_noop (s : App) :
  (state s = RUNNING ->
     start_countdown s = (Ret tt, s) /\ session (deliver Start s) = session s)
  /\ (state s = IDLE ->
        toggle_pause s = (Ret tt, s)
        /\ session (deliver PauseOrResume s) = session s).
Proof.
  split; intros H.
  - assert (E : start_countdown s = (Ret tt, s)).
    { handlers. cbn. rewrite H. reflexivity. }
    split; [exact E |]. unfold deliver, exec, handler. rewrite E. reflexivity.
  - assert (E : toggle_pause s = (Ret tt, s)).
    { handlers. cbn. rewrite H. reflexivity. }
    split; [exact E |]. unfold deliver, exec, handler. rewrite E. reflexivity.
Qed.

(** *** The lock signal *)

(** C6. A lock signal delivered while the phase is REST and the run state
    is RUNNING moves the run state to LOCKED_PAUSED and leaves the phase
    and the remaining seconds as they were; delivered in any other
    combination of phase and run state it changes nothing, so in
    particular the run state stays what it was while the phase is USE. *)
Theorem lock_pauses_only_running_rest (s : App) :
  (current_phase s = REST -> state s = RUNNING ->
     returns _on_screen_lock s = true
     /\ session (deliver Lock s)
          = (REST, LOCKED_PAUSED, remaining_seconds s)
     /\ scheduled_ticks (deliver Lock s) = scheduled_ticks s)
  /\ (String.eqb (current_phase s) REST && String.eqb (state s) RUNNING
        = false ->
      _on_screen_lock s = (Ret tt, s))
  /\ (current_phase s = USE -> state (deliver Lock s) = state s).
Proof.
  split; [| split].
  - intros Hp Hs. handlers. cbn. rewrite Hp, Hs. cbn.
    unfold session. cbn. rewrite Hp. auto.
  - intros H. handlers. cbn. rewrite H. reflexivity.
  - intros Hp. handlers. cbn. rewrite Hp. reflexivity.
Qed.

(** *** Reading the configuration *)

(** C9. [read_config] never raises. When the configuration file is
    missing, and when opening or parsing it raises (or anything else in
    the [try] block does), it returns the full default record, whose
    durations are 1500 and 300 seconds; and with such a file the
    constructor of the application does not fail either. *)
Theorem read_config_falls_back_to_defaults :
  read_config Absent = Ret default_config
  /\ (forall e, read_config (Garbled e) = Ret default_config)
  /\ (forall f e,
        read_config_try f = Raise e -> read_config f = Ret default_config)
  /\ (forall f, exists cfg, read_config f = Ret cfg)
  /\ get_int default_config "use_seconds" 0 = Ret 1500
  /\ get_int default_config "rest_seconds" 0 = Ret 300
  /\ dict_keys (match default_config with PDict d => d | _ => [] end)
       = [ "use_seconds"; "rest_seconds"; "popup_width"; "popup_height";
           "video_path"; "auto_start_countdown"; "windows_autostart";
           "enable_tray"; "enable_toast"; "fullscreen_rest";
           "enable_lock_screen" ]
  /\ (forall f t w,
        f = Absent \/ (exists e, f = Garbled e) ->
        exists s, App__init__ f t w = Ret s
                  /\ config_data s = default_config).
Proof.
  split; [reflexivity |].
  split; [intros e; reflexivity |].
  split.
  { intros f e H. unfold read_config.
    destruct (path_exists f); cbn; [rewrite H |]; reflexivity. }
  split.
  { intros f. unfold read_config.
    destruct (path_exists f); cbn; [| eexists; reflexivity].
    destruct (read_config_try f); cbn; eexists; reflexivity. }
  split; [reflexivity |].
  split; [reflexivity |].
  split; [reflexivity |].
  intros f t w [-> | [e ->]]; eexists;
    (split; [vm_compute; reflexivity | reflexivity]).
Qed.

(** The fallback covers what the [try] block raises, not a document that
    parses into a dict with an unusable value: with [null] as the use
    duration [read_config] returns the dict and the constructor raises. *)
Remark constructor_raises_on_null_duration (t w : bool) :
  read_config (Holds (PDict [ ("use_seconds", PNone) ]))
    = Ret (PDict [ ("use_seconds", PNone);
                   ("enable_lock_screen", PBool false) ])
  /\ App__init__ (Holds (PDict [ ("use_seconds", PNone) ])) t w
       = Raise TypeError.
Proof. split; reflexivity. Qed.

(** *** Saving the settings *)

(** C10. [save_settings] raises before it installs anything when the
    configuration path cannot be written. Otherwise it returns, and the
    record it wrote to disk and installed as the live configuration has
    exactly the nine keys filled from the values of the interface and no
    [enable_toast] and no [fullscreen_rest] key, whatever was persisted or
    live before. Every later read of those two toggles therefore yields
    the default: [enable_toast] reads as true and [fullscreen_rest] as
    false, also after the file is read back, and a popup opened under
    that configuration is never fullscreen. *)
Theorem save_settings_drops_toast_and_fullscreen (s : App) :
  (writable s = false -> save_settings s = (Raise OSError, s))
  /\ (writable s = true ->
      let s' := exec save_settings s in
      let v := vars s in
      returns save_settings s = true
      /\ config_data s' =
           PDict [ ("use_seconds", PInt (use_seconds_var v));
                   ("rest_seconds", PInt (rest_seconds_var v));
                   ("popup_width", PInt (popup_w_var v));
                   ("popup_height", PInt (popup_h_var v));
                   ("video_path", PStr (video_path_var v));
                   ("auto_start_countdown", PBool (auto_start_var v));
                   ("windows_autostart", PBool (win_autostart_var v));
                   ("enable_tray", PBool (tray_var v));
                   ("enable_lock_screen", PBool (lock_screen_var v)) ]
      /\ disk s' = Holds (config_data s')
      /\ read_config (disk s') = Ret (config_data s')
      /\ (forall d, py_get (config_data s') "enable_toast" d = Ret d)
      /\ (forall d, py_get (config_data s') "fullscreen_rest" d = Ret d)
      /\ get_bool (config_data s') "enable_toast" true = Ret true
      /\ get_bool (config_data s') "fullscreen_rest" false = Ret false
      /\ (forall s2, config_data s2 = config_data s' ->
            exists p, popups (exec _show_media_popup_and_continue s2)
                        = p :: popups s2
                      /\ pop_fullscreen p = false)
      /\ session s' = (USE, IDLE, use_seconds_var v)).
Proof.
  split.
  { intros Hw. handlers. cbn. rewrite Hw. reflexivity. }
  intros Hw s' v.
  assert (E : save_settings s = (Ret tt, s')).
  { subst s'. handlers. cbn. rewrite Hw. reflexivity. }
  assert (C : config_data s' =
       PDict [ ("use_seconds", PInt (use_seconds_var v));
               ("rest_seconds", PInt (rest_seconds_var v));
               ("popup_width", PInt (popup_w_var v));
               ("popup_height", PInt (popup_h_var v));
               ("video_path", PStr (video_path_var v));
               ("auto_start_countdown", PBool (auto_start_var v));
               ("windows_autostart", PBool (win_autostart_var v));
               ("enable_tray", PBool (tray_var v));
               ("enable_lock_screen", PBool (lock_screen_var v)) ]).
  { subst s' v. handlers. cbn. rewrite Hw. reflexivity. }
  split; [unfold returns; rewrite E; reflexivity |].
  split; [exact C |].
  split; [subst s' v; handlers; cbn; rewrite Hw; reflexivity |].
  split; [subst s' v; handlers; cbn; rewrite Hw; reflexivity |].
  rewrite C.
  split; [reflexivity |]. split; [reflexivity |].
  split; [reflexivity |]. split; [reflexivity |].
  split.
  - intros s2 H2. handlers. cbn. rewrite H2. cbn.
    rewrite video_path_check_str. cbn.
    eexists. split; [reflexivity |]. cbn.
    destruct (lock_screen_var v); reflexivity.
  - subst s' v. handlers. cbn. rewrite Hw. reflexivity.
Qed.

(** *** Scheduled ticks *)

Lemma deliver_tick_unscheduled (s : App) :
  scheduled_ticks s = 0%nat -> deliver Tick s = s.
Proof.
  intros H. unfold deliver, exec, handler, bind, gets. cbn.
  rewrite H. reflexivity.
Qed.

Lemma run_ticks_unscheduled (n : nat) (s : App) :
  scheduled_ticks s = 0%nat -> run (repeat Tick n) s = s.
Proof.
  intros H. induction n as [| n IH]; cbn; [reflexivity |].
  rewrite deliver_tick_unscheduled by exact H. exact IH.
Qed.

(** *** The unlock signal *)

(** C1, what the code does. An unlock signal delivered while the run
    state is LOCKED_PAUSED, in either phase, sets the run state to RUNNING
    and keeps the phase and the remaining seconds, but schedules no tick
    and runs none: [start_countdown] is called after the run state is
    already RUNNING and returns at once. When no tick was scheduled any
    more at that time, none ever fires again and the remaining seconds
    stay where they are. *)
Theorem unlock_sets_running_without_tick (s : App) :
  state s = LOCKED_PAUSED ->
  current_phase s = USE \/ current_phase s = REST ->
  returns _on_screen_unlock s = true
  /\ session (deliver Unlock s)
       = (current_phase s, RUNNING, remaining_seconds s)
  /\ scheduled_ticks (deliver Unlock s) = scheduled_ticks s
  /\ effects (deliver Unlock s) = effects s
  /\ (scheduled_ticks s = 0%nat ->
      forall n, run (repeat Tick n) (deliver Unlock s) = deliver Unlock s).
Proof.
  intros Hs Hp.
  assert (F : returns _on_screen_unlock s = true
              /\ session (deliver Unlock s)
                   = (current_phase s, RUNNING, remaining_seconds s)
              /\ scheduled_ticks (deliver Unlock s) = scheduled_ticks s
              /\ effects (deliver Unlock s) = effects s).
  { handlers. cbn. rewrite Hs.
    destruct Hp as [Hp | Hp]; rewrite Hp; cbn;
      destruct (String.eqb (btn_text (pause_btn s)) "继续 (已锁屏)");
      cbn; unfold session; cbn; rewrite ?Hp; auto. }
  destruct F as (F1 & F2 & F3 & F4).
  repeat split; try assumption.
  intros H0 n. apply run_ticks_unscheduled. rewrite F3. exact H0.
Qed.

(** *** Pairs outside the transition table *)

(** C5, as the code has it. A pair of run state and event that the
    transition table does not list leaves the Timer Session unchanged,
    except for the start command: [start_countdown] is a no-op only while
    the run state is RUNNING. Issued in any other run state, so also in
    LOCKED_PAUSED and in PAUSED, with seconds remaining, it sets the run
    state to RUNNING, runs a tick at once and schedules the next one. *)
Theorem unlisted_pair_is_noop_except_start (s : App) (e : event) :
  listed_transition s e = false ->
  match e with
  | Start =>
      (state s = RUNNING -> deliver Start s = s)
      /\ (String.eqb (state s) RUNNING = false ->
          0 < remaining_seconds s ->
          session (deliver Start s)
            = (current_phase s, RUNNING, remaining_seconds s - 1)
          /\ scheduled_ticks (deliver Start s) = S (scheduled_ticks s))
  | _ => session (deliver e s) = session s
  end.
Proof.
  intros H. destruct e; cbn in H; try discriminate.
  - split.
    + intros Hs. handlers. cbn. rewrite Hs. reflexivity.
    + intros Hs Hpos. handlers. cbn. rewrite Hs. cbn.
      destruct (Z.leb_spec (remaining_seconds s) 0); [lia |].
      destruct (String.eqb (current_phase s) USE); cbn;
        (destruct (Z.leb_spec (remaining_seconds s) 0); [lia |]);
        split; reflexivity.
  - apply orb_false_iff in H. destruct H as [H1 H2].
    handlers. cbn. rewrite H1, H2. reflexivity.
  - handlers. cbn. destruct (scheduled_ticks s); cbn; [reflexivity |].
    rewrite H. reflexivity.
  - handlers. cbn. rewrite andb_comm, H. reflexivity.
  - handlers. cbn. rewrite H, !andb_false_r. cbn.
    destruct (String.eqb (btn_text (pause_btn s)) "继续 (已锁屏)");
      reflexivity.
Qed.

(** *** Acknowledging the popup *)


(** *** Ticks are never cancelled *)

Lemma deliver_tick_scheduled (s : App) (n : nat) :
  scheduled_ticks s = S n ->
  deliver Tick s = exec _tick (set_scheduled_ticks n s).
Proof.
  intros H. unfold deliver, exec, handler, bind, gets, modify. cbn.
  rewrite H. reflexivity.
Qed.

Lemma deliver_tick_remaining (s : App) :
  remaining_seconds s - 1 <= remaining_seconds (deliver Tick s)
    <= remaining_seconds s.
Proof.
  destruct (scheduled_ticks s) as [| n] eqn:Hn.
  - rewrite deliver_tick_unscheduled by exact Hn. lia.
  - rewrite (deliver_tick_scheduled s n Hn).
    destruct (String.eqb (state s) RUNNING) eqn:Hs.
    + apply String.eqb_eq in Hs.
      destruct (Z.ltb_spec 0 (remaining_seconds s)) as [Hpos | Hle].
      * unfold exec. rewrite tick_decrements by assumption. cbn. lia.
      * destruct (tick_completes (set_scheduled_ticks n s)) as (_ & _ & E & _);
          [exact Hs | exact Hle |].
        rewrite E. cbn. lia.
    + unfold exec. rewrite tick_not_running by exact Hs. cbn. lia.
Qed.

(** C2, as the code has it. Nothing cancels a scheduled tick: a reset, a
    pause (the transition from RUNNING to PAUSED) and a lock signal leave
    the number of scheduled tick callbacks as it was. A scheduled tick
    that fires while the run state is not RUNNING is a no-op: it leaves
    the object as it was and schedules nothing, so that callback is gone.
    And a scheduled tick that fires takes at most one second off the
    remaining seconds. *)
Theorem scheduled_ticks_are_never_cancelled (s : App) :
  scheduled_ticks (deliver ResetCmd s) = scheduled_ticks s
  /\ (state s = RUNNING ->
      state (deliver PauseOrResume s) = PAUSED
      /\ scheduled_ticks (deliver PauseOrResume s) = scheduled_ticks s)
  /\ scheduled_ticks (deliver Lock s) = scheduled_ticks s
  /\ (String.eqb (state s) RUNNING = false ->
      forall n, scheduled_ticks s = S n ->
                deliver Tick s = set_scheduled_ticks n s)
  /\ remaining_seconds s - 1 <= remaining_seconds (deliver Tick s)
       <= remaining_seconds s.
Proof.
  split; [| split; [| split; [| split]]].
  - handlers. cbn. case_result; reflexivity.
  - intros Hs. handlers. cbn. rewrite Hs. cbn. split; reflexivity.
  - handlers. cbn. case_result; reflexivity.
  - intros Hs n Hn. rewrite (deliver_tick_scheduled s n Hn).
    unfold exec. rewrite tick_not_running by exact Hs. reflexivity.
  - apply deliver_tick_remaining.
Qed.

(** *** Counting down to the completion of a phase *)

Lemma deliver_tick_counts_down (s : App) :
  state s = RUNNING -> scheduled_ticks s = 1%nat ->
  0 < remaining_seconds s ->
  state (deliver Tick s) = RUNNING
  /\ scheduled_ticks (deliver Tick s) = 1%nat
  /\ remaining_seconds (deliver Tick s) = remaining_seconds s - 1
  /\ effects (deliver Tick s) = effects s
  /\ current_phase (deliver Tick s) = current_phase s.
Proof.
  intros Hs Hn Hpos. rewrite (deliver_tick_scheduled s 0 Hn).
  unfold exec. rewrite tick_decrements by assumption. cbn. auto.
Qed.

Lemma run_ticks_count_down (k : nat) :
  forall s : App,
    state s = RUNNING -> scheduled_ticks s = 1%nat ->
    Z.of_nat k <= remaining_seconds s ->
    state (run (repeat Tick k) s) = RUNNING
    /\ scheduled_ticks (run (repeat Tick k) s) = 1%nat
    /\ remaining_seconds (run (repeat Tick k) s)
         = remaining_seconds s - Z.of_nat k
    /\ effects (run (repeat Tick k) s) = effects s
    /\ current_phase (run (repeat Tick k) s) = current_phase s.
Proof.
  induction k as [| k IH]; intros s Hs Hn Hk.
  - cbn. repeat split; try assumption; try reflexivity. lia.
  - cbn [repeat run].
    destruct (deliver_tick_counts_down s Hs Hn) as (A & B & C & D & E);
      [lia |].
    destruct (IH (deliver Tick s) A B) as (A' & B' & C' & D' & E');
      [lia |].
    rewrite A', B', C', D', E', C, D, E. repeat split; try reflexivity. lia.
Qed.

Lemma run_app (es1 es2 : list event) (s : App) :
  run (es1 ++ es2)%list s = run es2 (run es1 s).
Proof.
  revert s. induction es1 as [| e es1 IH]; intros s; cbn; [reflexivity |].
  apply IH.
Qed.

Lemma deliver_tick_completes (s : App) :
  state s = RUNNING -> remaining_seconds s <= 0 ->
  (0 < scheduled_ticks s)%nat ->
  state (deliver Tick s) = IDLE
  /\ scheduled_ticks (deliver Tick s) = pred (scheduled_ticks s)
  /\ completed (effects (deliver Tick s))
       = (completed (effects s) ++ [current_phase s])%list.
Proof.
  intros Hs Hle Hn.
  destruct (scheduled_ticks s) as [| n] eqn:E; [lia |].
  rewrite (deliver_tick_scheduled s n E).
  destruct (tick_completes (set_scheduled_ticks n s))
    as (A & _ & _ & B & _ & rest & C & D); [exact Hs | exact Hle |].
  cbn in B, C. repeat split; try assumption.
  rewrite C, completed_app. cbn. rewrite D. reflexivity.
Qed.

Lemma start_runs_first_tick (s : App) :
  String.eqb (state s) RUNNING = false -> 0 < remaining_seconds s ->
  returns start_countdown s = true
  /\ state (deliver Start s) = RUNNING
  /\ scheduled_ticks (deliver Start s) = S (scheduled_ticks s)
  /\ remaining_seconds (deliver Start s) = remaining_seconds s - 1
  /\ effects (deliver Start s) = effects s
  /\ current_phase (deliver Start s) = current_phase s.
Proof.
  intros Hs Hpos.
  assert (E : (remaining_seconds s <=? 0)%Z = false)
    by (apply Z.leb_gt; lia).
  handlers. cbn. rewrite Hs. cbn. rewrite E.
  destruct (String.eqb (current_phase s) USE); cbn; rewrite E;
    repeat split; reflexivity.
Qed.

Lemma deliver_tick_not_running (s : App) :
  String.eqb (state s) RUNNING = false ->
  state (deliver Tick s) = state s
  /\ effects (deliver Tick s) = effects s
  /\ remaining_seconds (deliver Tick s) = remaining_seconds s.
Proof.
  intros Hs. destruct (scheduled_ticks s) as [| n] eqn:Hn.
  - rewrite deliver_tick_unscheduled by exact Hn. auto.
  - rewrite (deliver_tick_scheduled s n Hn). unfold exec.
    rewrite tick_not_running by exact Hs. cbn. auto.
Qed.

Lemma run_ticks_not_running (n : nat) :
  forall s : App,
    String.eqb (state s) RUNNING = false ->
    state (run (repeat Tick n) s) = state s
    /\ effects (run (repeat Tick n) s) = effects s
    /\ remaining_seconds (run (repeat Tick n) s) = remaining_seconds s.
Proof.
  induction n as [| n IH]; intros s Hs; cbn [repeat run]; [auto |].
  destruct (deliver_tick_not_running s Hs) as (A & B & C).
  destruct (IH (deliver Tick s)) as (A' & B' & C');
    [rewrite A; exact Hs |].
  rewrite A', B', C', A, B, C. auto.
Qed.

(** C3. (1) With [use_seconds] = 5 in the configuration, whether or not
    the constructor starts the countdown by itself, starting the engine
    and delivering five scheduled ticks yields exactly one completion, of
    the phase USE: fewer ticks yield none and leave the run state RUNNING;
    after the fifth the run state is IDLE and no tick is scheduled, so a
    sixth cannot apply. (2) In general a scheduled tick that fires while
    the run state is RUNNING and no second remains records exactly one
    completion of the current phase, sets the run state to IDLE and
    schedules no tick; the ticks that are still scheduled do nothing
    more. (3) From an idle session with [n + 1] seconds and no tick
    scheduled, starting and delivering [n + 1] ticks completes the phase
    exactly once, and no earlier. *)
Theorem phase_completes_exactly_once :
  (forall auto t w,
     exists s0,
       App__init__
         (Holds (PDict [ ("use_seconds", PInt 5);
                         ("auto_start_countdown", PBool auto) ])) t w
         = Ret s0
       /\ (forall k, (k < 5)%nat ->
             completed (effects (run (Start :: repeat Tick k) s0)) = []
             /\ state (run (Start :: repeat Tick k) s0) = RUNNING)
       /\ completed (effects (run (Start :: repeat Tick 5) s0)) = [USE]
       /\ state (run (Start :: repeat Tick 5) s0) = IDLE
       /\ scheduled_ticks (run (Start :: repeat Tick 5) s0) = 0%nat
       /\ run (Start :: repeat Tick 6) s0 = run (Start :: repeat Tick 5) s0)
  /\ (forall s,
        state s = RUNNING -> remaining_seconds s <= 0 ->
        (0 < scheduled_ticks s)%nat ->
        completed (effects (deliver Tick s))
          = (completed (effects s) ++ [current_phase s])%list
        /\ state (deliver Tick s) = IDLE
        /\ scheduled_ticks (deliver Tick s) = pred (scheduled_ticks s)
        /\ forall n,
             completed (effects (run (repeat Tick n) (deliver Tick s)))
               = (completed (effects s) ++ [current_phase s])%list
             /\ state (run (repeat Tick n) (deliver Tick s)) = IDLE)
  /\ (forall s n,
        state s = IDLE -> scheduled_ticks s = 0%nat ->
        remaining_seconds s = Z.of_nat (S n) ->
        (forall k, (k <= n)%nat ->
           completed (effects (run (Start :: repeat Tick k) s))
             = completed (effects s)
           /\ state (run (Start :: repeat Tick k) s) = RUNNING)
        /\ completed (effects (run (Start :: repeat Tick (S n)) s))
             = (completed (effects s) ++ [current_phase s])%list
        /\ state (run (Start :: repeat Tick (S n)) s) = IDLE
        /\ scheduled_ticks (run (Start :: repeat Tick (S n)) s) = 0%nat).
Proof.
  split; [| split].
  - intros auto t w.
    destruct auto, t, w; eexists;
      (split; [vm_compute; reflexivity |]);
      (split; [intros k Hk;
               do 5 (destruct k as [| k]; [vm_compute; auto |]); lia |]);
      vm_compute; auto.
  - intros s Hs Hle Hn.
    destruct (deliver_tick_completes s Hs Hle Hn) as (A & B & C).
    repeat split; try assumption.
    + destruct (run_ticks_not_running n (deliver Tick s)) as (_ & E & _);
        [rewrite A; reflexivity |].
      rewrite E. exact C.
    + destruct (run_ticks_not_running n (deliver Tick s)) as (E & _);
        [rewrite A; reflexivity |].
      rewrite E. exact A.
  - intros s n Hs Hn Hr.
    destruct (start_runs_first_tick s) as (_ & A & B & C & D & E);
      [rewrite Hs; reflexivity | lia |].
    rewrite Hn in B.
    assert (K : forall k, (k <= n)%nat ->
              state (run (repeat Tick k) (deliver Start s)) = RUNNING
              /\ scheduled_ticks (run (repeat Tick k) (deliver Start s))
                   = 1%nat
              /\ remaining_seconds (run (repeat Tick k) (deliver Start s))
                   = Z.of_nat n - Z.of_nat k
              /\ effects (run (repeat Tick k) (deliver Start s)) = effects s
              /\ current_phase (run (repeat Tick k) (deliver Start s))
                   = current_phase s).
    { intros k Hk.
      destruct (run_ticks_count_down k (deliver Start s) A B)
        as (A' & B' & C' & D' & E'); [lia |].
      rewrite A', B', C', D', E', C, D, E. repeat split; try reflexivity.
      lia. }
    split.
    + intros k Hk. cbn [run]. destruct (K k Hk) as (A' & _ & _ & D' & _).
      rewrite D', A'. auto.
    + cbn [run].
      change (repeat Tick (S n)) with (Tick :: repeat Tick n).
      rewrite repeat_cons, run_app. cbn [run].
      destruct (K n (le_n n)) as (A' & B' & C' & D' & E').
      destruct (deliver_tick_completes
                  (run (repeat Tick n) (deliver Start s)))
        as (A2 & B2 & C2); [exact A' | lia | lia |].
      rewrite C2, A2, B2, B', D', E'. auto.
Qed.

(** *** The invariant of the session *)

Ltac explicit_ok :=
  unfold session_ok, run_states, IDLE, RUNNING, PAUSED, LOCKED_PAUSED in *;
  cbn in *; intuition (auto; lia).

Lemma tick_preserves (s : App) : session_ok s -> session_ok (exec _tick s).
Proof.
  intros H. destruct (String.eqb (state s) RUNNING) eqn:Hs.
  - apply String.eqb_eq in Hs.
    destruct (Z.ltb_spec 0 (remaining_seconds s)) as [Hpos | Hle].
    + unfold exec. rewrite tick_decrements by assumption. explicit_ok.
    + destruct (tick_completes s Hs Hle) as (A & _ & B & _ & C & _).
      unfold session_ok. rewrite A, B, C. explicit_ok.
  - unfold exec. rewrite tick_not_running by exact Hs. exact H.
Qed.

Arguments _tick : simpl never.
Arguments start_countdown : simpl never.

Ltac open_handler :=
  unfold deliver, handler, exec, _close_popup_and_start_next,
    _on_screen_unlock, _on_screen_lock, reset_countdown, toggle_pause,
    _lock_computer, _update_labels, emit, start_btn_config,
    pause_btn_config, pause_btn_config_text, bind, lift, gets, modify, ret;
  cbn.

Lemma start_preserves (s : App) :
  session_ok s -> session_ok (exec start_countdown s).
Proof.
  intros H. pose proof H as (H0 & H1 & u & r & Hu & Hu1 & Hr & Hr1).
  unfold exec, start_countdown, _update_labels, start_btn_config,
    pause_btn_config, bind, lift, gets, modify, ret. cbn.
  repeat (first [rewrite Hu | rewrite Hr | case_result]; cbn);
    try exact H; apply tick_preserves; explicit_ok.
Qed.

Lemma deliver_preserves (e : event) (s : App) :
  session_ok s -> session_ok (deliver e s).
Proof.
  intros H. pose proof H as (H0 & H1 & u & r & Hu & Hu1 & Hr & Hr1).
  destruct e.
  - apply start_preserves. exact H.
  - open_handler.
    repeat (case_result; cbn); try exact H;
      try (apply tick_preserves); explicit_ok.
  - open_handler. rewrite Hu. cbn. explicit_ok.
  - open_handler. destruct (scheduled_ticks s); cbn; [exact H |].
    apply tick_preserves. explicit_ok.
  - open_handler. repeat (case_result; cbn); try exact H; explicit_ok.
  - open_handler.
    repeat (case_result; cbn);
      try match goal with
          | |- context [start_countdown ?x] =>
              assert (HS : session_ok (exec start_countdown x))
                by (apply start_preserves; explicit_ok);
              unfold exec in HS;
              destruct (start_countdown x) as [r0 s1]; cbn in HS |- *
          end;
      repeat (case_result; cbn); explicit_ok.
  - open_handler. destruct (popups s); cbn; [exact H |].
    repeat (first [rewrite Hu | rewrite Hr | case_result]; cbn);
      try (apply tick_preserves); try (apply start_preserves);
      explicit_ok.
Qed.

Lemma run_preserves (es : list event) :
  forall s : App, session_ok s -> session_ok (run es s).
Proof.
  induction es as [| e es IH]; intros s H; cbn; [exact H |].
  apply IH, deliver_preserves, H.
Qed.

Lemma tick_config (s : App) : config_data (exec _tick s) = config_data s.
Proof.
  destruct (String.eqb (state s) RUNNING) eqn:Hs.
  - apply String.eqb_eq in Hs.
    destruct (Z.ltb_spec 0 (remaining_seconds s)) as [Hpos | Hle].
    + unfold exec. rewrite tick_decrements by assumption. reflexivity.
    + destruct (tick_completes s Hs Hle) as (_ & _ & _ & _ & C & _).
      exact C.
  - unfold exec. rewrite tick_not_running by exact Hs. reflexivity.
Qed.

Lemma start_config (s : App) :
  config_data (exec start_countdown s) = config_data s.
Proof.
  unfold exec, start_countdown, _update_labels, start_btn_config,
    pause_btn_config, bind, lift, gets, modify, ret. cbn.
  repeat (case_result; cbn); try reflexivity;
    match goal with
    | |- config_data (snd (_tick ?x)) = _ => apply (tick_config x)
    end.
Qed.

Lemma init_ok (f : config_file) (t w : bool) (s0 : App) :
  App__init__ f t w = Ret s0 ->
  durations_ok (config_data s0) ->
  session_ok s0.
Proof.
  intros H Hd. unfold App__init__ in H.
  destruct (read_config f) as [cfg |]; cbn in H; [| discriminate].
  destruct (get_int cfg "use_seconds" 1500) as [u |] eqn:Hu; cbn in H;
    [| discriminate].
  unfold _apply_config_to_ui, _update_labels, bind, lift, gets, modify, ret
    in H.
  cbn in H. rewrite Hu in H. cbn in H.
  repeat match type of H with
         | context [match ?r with Ret _ => _ | Raise _ => _ end] =>
             destruct r eqn:?; cbn in H; try discriminate
         end.
  match type of H with
  | context [if ?b then _ else _] => destruct b
  end.
  - match type of H with
    | context [start_countdown ?x] =>
        pose proof (start_preserves x) as P;
        pose proof (start_config x) as C;
        unfold exec in P, C;
        destruct (start_countdown x) as [r1 s1]
    end.
    cbn in P, C. destruct r1; [| discriminate].
    injection H as <-. rewrite C in Hd. apply P.
    destruct Hd as (u' & r' & Hu' & Hu1 & Hr' & Hr1).
    assert (u' = u) by congruence. subst u'.
    unfold session_ok, run_states. cbn.
    split; [lia |]. split; [auto |]. exists u, r'. auto.
  - cbn in H. injection H as <-. cbn in Hd.
    destruct Hd as (u' & r' & Hu' & Hu1 & Hr' & Hr1).
    assert (u' = u) by congruence. subst u'.
    unfold session_ok, run_states. cbn.
    split; [lia |]. split; [auto |]. exists u, r'. auto.
Qed.

(** C4. From the session that the constructor builds, with both
    configured durations at least 1, every sequence of start, pause or
    resume and reset commands interleaved with scheduled ticks leads to a
    session whose remaining seconds are not negative and whose run state
    is one of IDLE, RUNNING, PAUSED and LOCKED_PAUSED. *)
Theorem session_invariant
    (f : config_file) (t w : bool) (s0 : App) (es : list event) :
  App__init__ f t w = Ret s0 ->
  durations_ok (config_data s0) ->
  forallb engine_event es = true ->
  0 <= remaining_seconds (run es s0)
  /\ In (state (run es s0)) [IDLE; RUNNING; PAUSED; LOCKED_PAUSED].
Proof.
  intros H Hd _.
  destruct (run_preserves es s0 (init_ok f t w s0 H Hd)) as (A & B & _).
  split; assumption.
Qed.

(** ** More of the engine *)

Lemma set_remaining_seconds_same (s : App) :
  set_remaining_seconds (remaining_seconds s) s = s.
Proof. destruct s; reflexivity. Qed.

Lemma deliver_tick_exact (s : App) (n : nat) :
  state s = RUNNING -> scheduled_ticks s = S n -> 0 < remaining_seconds s ->
  deliver Tick s = set_remaining_seconds (remaining_seconds s - 1) s.
Proof.
  intros Hs Hn Hpos. rewrite (deliver_tick_scheduled s n Hn).
  unfold exec. rewrite tick_decrements by assumption.
  destruct s; cbn in *; subst; reflexivity.
Qed.

Lemma run_ticks_exact (k : nat) :
  forall s : App,
    state s = RUNNING -> (0 < scheduled_ticks s)%nat ->
    Z.of_nat k <= remaining_seconds s ->
    run (repeat Tick k) s
      = set_remaining_seconds (remaining_seconds s - Z.of_nat k) s.
Proof.
  induction k as [| k IH]; intros s Hs Hn Hk.
  - cbn. rewrite Z.sub_0_r. symmetry. apply set_remaining_seconds_same.
  - cbn [repeat run].
    destruct (scheduled_ticks s) as [| n] eqn:E; [lia |].
    rewrite (deliver_tick_exact s n) by (assumption || lia).
    rewrite IH; cbn; try assumption; try lia.
    unfold set_remaining_seconds. cbn. f_equal. lia.
Qed.


Lemma lock_actions_app (l1 l2 : list effect) :
  lock_actions (l1 ++ l2)%list = (lock_actions l1 + lock_actions l2)%nat.
Proof.
  induction l1 as [| e l1 IH]; simpl; [reflexivity |].
  destruct e; simpl; rewrite IH; reflexivity.
Qed.

Lemma toasts_app (l1 l2 : list effect) :
  toasts (l1 ++ l2)%list = (toasts l1 ++ toasts l2)%list.
Proof.
  induction l1 as [| e l1 IH]; simpl; [reflexivity |].
  destruct e; simpl; rewrite IH; reflexivity.
Qed.

Lemma get_bool_dict (d : list (string * value)) (key : string) (b : bool) :
  get_bool (PDict d) key b
    = Ret (py_bool (match dict_get key d with
                    | Some v => v
                    | None => PBool b
                    end)).
Proof. reflexivity. Qed.

Lemma py_get_dict (d : list (string * value)) (key : string) (v : value) :
  py_get (PDict d) key v
    = Ret (match dict_get key d with Some x => x | None => v end).
Proof. reflexivity. Qed.

Arguments get_int : simpl never.
Arguments get_bool : simpl never.
Arguments py_get : simpl never.

Ltac read_config_dict A :=
  first [ rewrite A | rewrite get_bool_dict | rewrite py_get_dict ].








Lemma pause_resume_exact (s : App) :
  state s = RUNNING -> 0 < remaining_seconds s ->
  run pause_resume s
    = set_scheduled_ticks (S (scheduled_ticks s))
        (set_remaining_seconds (remaining_seconds s - 1)
           (set_pause_btn
              {| btn_text := "暂停"; btn_state := btn_state (pause_btn s) |}
              s)).
Proof.
  intros Hs Hpos.
  assert (E : (remaining_seconds s <=? 0)%Z = false)
    by (apply Z.leb_gt; lia).
  unfold pause_resume. cbn [run]. handlers. cbn. rewrite Hs. cbn.
  rewrite E. destruct s; cbn in *; subst; reflexivity.
Qed.

(** X2. Each pause followed by a resume takes one second off at once (the
    resume runs a tick without waiting) and leaves one more tick scheduled
    than before; [n] such pairs in a row, with at least [n] seconds left,
    take [n] seconds off and add [n] scheduled ticks, with no other change
    to the session and no effect. *)
Theorem pause_resume_costs_a_second (n : nat) :
  forall s : App,
    state s = RUNNING -> Z.of_nat n <= remaining_seconds s ->
    state (run (List.concat (repeat pause_resume n)) s) = RUNNING
    /\ current_phase (run (List.concat (repeat pause_resume n)) s)
         = current_phase s
    /\ remaining_seconds (run (List.concat (repeat pause_resume n)) s)
         = remaining_seconds s - Z.of_nat n
    /\ scheduled_ticks (run (List.concat (repeat pause_resume n)) s)
         = (scheduled_ticks s + n)%nat
    /\ effects (run (List.concat (repeat pause_resume n)) s) = effects s.
Proof.
  induction n as [| n IH]; intros s Hs Hn.
  - cbn. repeat split; try assumption; lia.
  - cbn [repeat List.concat]. rewrite run_app.
    rewrite pause_resume_exact by (assumption || lia).
    edestruct IH as (A & B & C & D & E);
      [| | rewrite A, B, C, D, E; cbn; repeat split; try reflexivity; lia].
    + exact Hs.
    + cbn. lia.
Qed.

(** X3. While the session is running, every scheduled tick that fires takes
    a second off and schedules its successor: once each of the [c]
    scheduled ticks has fired, [c] seconds are gone and [c] ticks are
    scheduled again, and nothing else of the object has changed. With two
    chains the clock runs at twice the speed. *)
Theorem scheduled_ticks_each_take_a_second (s : App) :
  state s = RUNNING ->
  Z.of_nat (scheduled_ticks s) <= remaining_seconds s ->
  run (repeat Tick (scheduled_ticks s)) s
    = set_remaining_seconds
        (remaining_seconds s - Z.of_nat (scheduled_ticks s)) s.
Proof.
  intros Hs Hk. destruct (scheduled_ticks s) as [| c] eqn:E.
  - cbn. rewrite Z.sub_0_r. symmetry. apply set_remaining_seconds_same.
  - apply run_ticks_exact; [exact Hs | lia | exact Hk].
Qed.

(** X4. A lock signal followed by an unlock signal, with no tick in
    between, leaves a running rest phase with the same session, the same
    scheduled ticks and no effect: no second is lost or gained, and the
    tick that was scheduled goes on counting. When the buttons are as
    [start_countdown] leaves them, the object is exactly as before. *)
Theorem lock_then_unlock_restores (s : App) :
  current_phase s = REST -> state s = RUNNING ->
  session (run [Lock; Unlock] s) = session s
  /\ scheduled_ticks (run [Lock; Unlock] s) = scheduled_ticks s
  /\ effects (run [Lock; Unlock] s) = effects s
  /\ (btn_state (start_btn s) = DISABLED ->
      pause_btn s = {| btn_text := "暂停"; btn_state := NORMAL |} ->
      run [Lock; Unlock] s = s).
Proof.
  intros Hp Hs. cbn [run]. unfold session. handlers. cbn.
  repeat (first [ rewrite Hp | rewrite Hs
                | progress change (String.eqb REST USE) with false
                | progress change (String.eqb REST REST) with true ];
          cbn).
  repeat split.
  intros Hb Hq. destruct s as [c p r st t sb pb v n ps ef dk wr].
  cbn in *. subst. destruct sb. cbn in *. subst. reflexivity.
Qed.

(** X5. A reset, whatever the session was, sets the run state to IDLE and
    the phase to USE. When the configured use duration converts to an
    integer, the remaining seconds become that duration, the buttons go back
    to their initial states and a second reset changes nothing more; the
    open popups and the scheduled ticks stay. When the duration does not
    convert, the reset raises after it has changed the run state and the
    phase: the remaining seconds and the buttons are left as they were. *)
Theorem reset_returns_to_idle_use (s : App) :
  (forall u, get_int (config_data s) "use_seconds" 1500 = Ret u ->
     returns reset_countdown s = true
     /\ session (deliver ResetCmd s) = (USE, IDLE, u)
     /\ btn_state (start_btn (deliver ResetCmd s)) = NORMAL
     /\ pause_btn (deliver ResetCmd s)
          = {| btn_text := "暂停"; btn_state := DISABLED |}
     /\ popups (deliver ResetCmd s) = popups s
     /\ scheduled_ticks (deliver ResetCmd s) = scheduled_ticks s
     /\ effects (deliver ResetCmd s) = effects s
     /\ deliver ResetCmd (deliver ResetCmd s) = deliver ResetCmd s)
  /\ (forall e, get_int (config_data s) "use_seconds" 1500 = Raise e ->
        reset_countdown s
          = (Raise e, set_current_phase USE (set_state IDLE s))).
Proof.
  split.
  - intros u Hu. unfold session. handlers. cbn. rewrite Hu. cbn.
    rewrite Hu. cbn. repeat split.
  - intros e He. handlers. cbn. rewrite He. reflexivity.
Qed.


(** X7. The window manager's close request destroys a popup that is not
    fullscreen without starting the next phase, and a fullscreen popup
    ignores it. After such a close the phase that ended is still the
    current one, so the next start counts that same phase again with its
    full duration: the other phase is skipped. *)
Theorem closing_popup_repeats_phase (d : list (string * value))
    (st phase : string) (remaining u r : Z) (c open : nat)
    (done : list string) (locks : nat) (p : popup) (ps : list popup)
    (s : App) :
  popups s = p :: ps ->
  (pop_fullscreen p = true -> ignore_close s = (Ret tt, s))
  /\ (pop_fullscreen p = false ->
      ignore_close s = (Ret tt, set_popups ps s)
      /\ (get_int (PDict d) "use_seconds" 1500 = Ret u -> 1 <= u ->
          get_int (PDict d) "rest_seconds" 300 = Ret r -> 1 <= r ->
          String.eqb st RUNNING = false -> remaining <= 0 ->
          observed d st phase remaining c (S open) done locks s ->
          observed d RUNNING phase
            ((if String.eqb phase USE then u else r) - 1) (S c) open done
            locks (deliver Start (exec ignore_close s)))).
Proof.
  intros P. split.
  - intros Hf. unfold ignore_close, bind, gets, ret. cbn.
    rewrite P, Hf. reflexivity.
  - intros Hf.
    assert (E0 : ignore_close s = (Ret tt, set_popups ps s)).
    { unfold ignore_close, bind, gets, modify. cbn. rewrite P, Hf.
      reflexivity. }
    split; [exact E0 |].
    intros Hu Hu1 Hr Hr1 Hs Hle (A & B & C & D & E & F & G & H).
    assert (Er : (r <=? 0)%Z = false) by (apply Z.leb_gt; lia).
    assert (Eu : (u <=? 0)%Z = false) by (apply Z.leb_gt; lia).
    assert (L : (remaining_seconds s <=? 0)%Z = true)
      by (apply Z.leb_le; lia).
    unfold exec at 1. rewrite E0. cbn [snd].
    rewrite P in F. cbn in F. injection F as F.
    handlers. cbn. unfold observed.
    rewrite B, Hs. cbn.
    destruct (String.eqb phase USE) eqn:Hp;
      repeat (first [ read_config_dict A | rewrite Hu | rewrite Hr
                    | rewrite C | rewrite Hp | rewrite L
                    | rewrite Er | rewrite Eu | case_result ]; cbn);
      rewrite ?E; repeat split; try assumption; try reflexivity.
Qed.

(** *** What the handlers never do *)

Ltac open_more :=
  unfold deliver, handler, exec, _close_popup_and_start_next,
    _on_screen_unlock, _on_screen_lock, reset_countdown, toggle_pause,
    _show_media_popup_and_continue, _notify_phase_complete,
    _lock_computer, _update_labels, emit, after_1000_tick, start_btn_config,
    pause_btn_config, pause_btn_config_text, bind, lift, gets, modify, ret;
  cbn.

Ltac after_call lemma :=
  match goal with
  | |- context [start_countdown ?x] =>
      let HS := fresh "HS" in
      pose proof (lemma x) as HS; unfold exec in HS;
      destruct (start_countdown x) as [? ?]; cbn in HS |- *
  | |- context [_tick ?x] =>
      let HS := fresh "HS" in
      pose proof (lemma x) as HS; unfold exec in HS;
      destruct (_tick x) as [? ?]; cbn in HS |- *
  end.

Lemma tick_toastless (msgs : list string) (s : App) :
  toastless msgs s -> toastless msgs (exec _tick s).
Proof.
  intros (A & B). unfold exec, _tick, toastless. open_more.
  repeat (first [rewrite A | rewrite andb_false_r | case_result]; cbn);
    rewrite ?toasts_app, ?B; cbn; rewrite ?app_nil_r; auto.
Qed.

Lemma start_toastless (msgs : list string) (s : App) :
  toastless msgs s -> toastless msgs (exec start_countdown s).
Proof.
  intros H. pose proof H as (A & B).
  unfold exec, start_countdown. open_more.
  repeat (case_result; cbn); try exact H;
    apply tick_toastless; split; assumption.
Qed.

Lemma deliver_toastless (msgs : list string) (e : event) (s : App) :
  toastless msgs s -> toastless msgs (deliver e s).
Proof.
  intros H. pose proof H as (A & B).
  destruct e.
  - apply start_toastless. exact H.
  - open_more. repeat (case_result; cbn); try exact H;
      try (apply tick_toastless); split; assumption.
  - open_more. repeat (case_result; cbn); split; assumption.
  - open_more. destruct (scheduled_ticks s); cbn; [exact H |].
    apply tick_toastless. split; assumption.
  - open_more. repeat (case_result; cbn); try exact H; split; assumption.
  - open_more.
    repeat (case_result; cbn);
      try (after_call (fun x => start_toastless msgs x);
           repeat (case_result; cbn));
      try (split; assumption);
      try (apply HS; split; assumption);
      try (destruct HS; [split; assumption |]; split; assumption).
  - open_more. destruct (popups s); cbn; [exact H |].
    repeat (case_result; cbn);
      try (apply tick_toastless); try (apply start_toastless);
      unfold toastless; cbn; rewrite ?toasts_app, ?B; cbn;
      rewrite ?app_nil_r; auto.
Qed.

(** X8. On an object without a toaster (any platform but Windows with the
    toast package) no event ever adds a toast: whatever the main loop
    delivers, in whatever order, the toast messages stay as they were. *)
Theorem no_toast_without_toaster (es : list event) :
  forall s : App,
    toaster s = false ->
    toaster (run es s) = false
    /\ toasts (effects (run es s)) = toasts (effects s).
Proof.
  induction es as [| e es IH]; intros s H; cbn [run]; [auto |].
  destruct (deliver_toastless (toasts (effects s)) e s) as (A & B);
    [split; [exact H | reflexivity] |].
  destruct (IH (deliver e s) A) as (A' & B').
  rewrite A', B', B. auto.
Qed.

Lemma tick_lock_count (d : list (string * value)) (n : nat) (s : App) :
  lock_count d n s -> lock_count d n (exec _tick s).
Proof.
  intros (A & B). unfold exec, _tick, lock_count. open_more.
  repeat (first [read_config_dict A | case_result]; cbn);
    rewrite ?lock_actions_app, ?B; cbn; rewrite ?Nat.add_0_r; auto.
Qed.

Lemma start_lock_count (d : list (string * value)) (n : nat) (s : App) :
  lock_count d n s -> lock_count d n (exec start_countdown s).
Proof.
  intros H. pose proof H as (A & B).
  unfold exec, start_countdown. open_more.
  repeat (case_result; cbn); try exact H;
    apply tick_lock_count; split; assumption.
Qed.

Lemma deliver_lock_count (d : list (string * value)) (n : nat) (e : event)
    (s : App) :
  lock_for_rest d USE = false ->
  lock_count d n s -> lock_count d n (deliver e s).
Proof.
  intros Hoff H. pose proof H as (A & B).
  unfold lock_for_rest in Hoff.
  change (String.eqb USE USE) with true in Hoff.
  rewrite andb_true_r in Hoff.
  destruct e.
  - apply start_lock_count. exact H.
  - open_more. repeat (case_result; cbn); try exact H;
      try (apply tick_lock_count); split; assumption.
  - open_more. repeat (case_result; cbn); split; assumption.
  - open_more. destruct (scheduled_ticks s); cbn; [exact H |].
    apply tick_lock_count. split; assumption.
  - open_more. repeat (case_result; cbn); try exact H; split; assumption.
  - open_more.
    repeat (case_result; cbn);
      try (after_call (fun x => start_lock_count d n x);
           repeat (case_result; cbn));
      try (split; assumption);
      try (apply HS; split; assumption);
      try (destruct HS; [split; assumption |]; split; assumption).
  - open_more. destruct (popups s); cbn; [exact H |].
    repeat (first [ read_config_dict A | rewrite Hoff | case_result ];
            cbn);
      try (apply tick_lock_count); try (apply start_lock_count);
      unfold lock_count; cbn; auto.
Qed.

(** X9. While the lock-screen toggle of the live configuration is off (or
    absent), no event ever invokes the lock action, and no event changes the
    live configuration. *)
Theorem no_lock_action_while_toggle_off (d : list (string * value))
    (es : list event) :
  lock_for_rest d USE = false ->
  forall s : App,
    config_data s = PDict d ->
    config_data (run es s) = PDict d
    /\ lock_actions (effects (run es s)) = lock_actions (effects s).
Proof.
  intros Hoff.
  induction es as [| e es IH]; intros s H; cbn [run]; [auto |].
  destruct (deliver_lock_count d (lock_actions (effects s)) e s Hoff)
    as (A & B); [split; [exact H | reflexivity] |].
  destruct (IH (deliver e s) A) as (A' & B').
  rewrite B', B. auto.
Qed.

(** X10. Only the popup's button and a reset change the phase: a start, a
    pause or resume, a scheduled tick (also the one that completes the
    phase), a lock signal and an unlock signal leave it as it is. The
    countdown never moves on to the next phase by itself. *)
Theorem phase_waits_for_the_button (e : event) (s : App) :
  keeps_phase e = true ->
  current_phase (deliver e s) = current_phase s.
Proof.
  assert (T : forall x, current_phase (exec _tick x) = current_phase x).
  { intros x. unfold exec, _tick. open_more.
    repeat (case_result; cbn); reflexivity. }
  assert (St : forall x,
             current_phase (exec start_countdown x) = current_phase x).
  { intros x. unfold exec, start_countdown. open_more.
    repeat (case_result; cbn); try reflexivity;
      match goal with
      | |- current_phase (snd (_tick ?y)) = _ => exact (T y)
      end. }
  intros H. destruct e; try discriminate.
  - apply St.
  - open_more. repeat (case_result; cbn); try reflexivity.
    match goal with
    | |- current_phase (snd (_tick ?y)) = _ => exact (T y)
    end.
  - open_more. destruct (scheduled_ticks s); cbn; [reflexivity |].
    match goal with
    | |- current_phase (snd (_tick ?y)) = _ => exact (T y)
    end.
  - open_more. repeat (case_result; cbn); reflexivity.
  - open_more.
    repeat (case_result; cbn);
      try (after_call St; repeat (case_result; cbn)); auto.
Qed.

(** ** More of the configuration *)

Lemma dict_get_set_same {V : Type} (k : string) (v : V)
    (d : list (string * V)) :
  dict_get k (dict_set k v d) = Some v.
Proof.
  induction d as [| [k' v'] d IH]; cbn.
  - rewrite String.eqb_refl. reflexivity.
  - destruct (String.eqb k k') eqn:E; cbn.
    + rewrite String.eqb_refl. reflexivity.
    + rewrite E. exact IH.
Qed.

Lemma dict_get_set_other {V : Type} (k k' : string) (v : V)
    (d : list (string * V)) :
  String.eqb k' k = false ->
  dict_get k' (dict_set k v d) = dict_get k' d.
Proof.
  intros H. induction d as [| [k0 v0] d IH]; cbn.
  - rewrite H. reflexivity.
  - destruct (String.eqb k k0) eqn:E; cbn.
    + apply String.eqb_eq in E. subst k0. rewrite H. reflexivity.
    + destruct (String.eqb k' k0); [reflexivity | exact IH].
Qed.

(** X11. From a configuration file that holds a JSON object [read_config]
    returns that object, with [enable_lock_screen] added as false when the
    key is missing: an existing value of the key is kept, every other key
    reads as in the file, an object that has the key comes back unchanged,
    and reading the returned object once more returns it as it is. *)
Theorem read_config_completes_old_files (d : list (string * value)) :
  exists d',
    read_config (Holds (PDict d)) = Ret (PDict d')
    /\ dict_get "enable_lock_screen" d'
         = Some (match dict_get "enable_lock_screen" d with
                 | Some v => v
                 | None => PBool false
                 end)
    /\ (forall k, String.eqb k "enable_lock_screen" = false ->
                  dict_get k d' = dict_get k d)
    /\ (forall v, dict_get "enable_lock_screen" d = Some v -> d' = d)
    /\ read_config (Holds (PDict d')) = Ret (PDict d').
Proof.
  unfold read_config, read_config_try, try_except, value in *. cbn.
  destruct (dict_get "enable_lock_screen" d) as [v |] eqn:E; cbn.
  - exists d. cbn.
    repeat split; auto; try (rewrite E; reflexivity).
  - exists (dict_set "enable_lock_screen" (PBool false) d).
    cbn. rewrite ?E, !dict_get_set_same. cbn. repeat split; auto.
    + intros k Hk. apply dict_get_set_other. exact Hk.
    + intros v Hv. discriminate.
Qed.

(** X12. From a file that holds a JSON value other than an object,
    [read_config] returns the defaults, with one exception: a list that has
    the string [enable_lock_screen] among its elements, or a string that
    contains it, passes the membership test and is returned as it is. The
    constructor then raises [AttributeError] on its first [get]. *)
Theorem read_config_of_other_documents (doc : value) (t w : bool) :
  is_dict doc = false ->
  (py_contains "enable_lock_screen" doc = Ret true ->
     read_config (Holds doc) = Ret doc
     /\ App__init__ (Holds doc) t w = Raise AttributeError)
  /\ (py_contains "enable_lock_screen" doc <> Ret true ->
      read_config (Holds doc) = Ret default_config).
Proof.
  intros H. unfold read_config, read_config_try, try_except, App__init__.
  destruct doc; try discriminate; cbn; split; intros C;
    try discriminate; try reflexivity;
    unfold py_contains in C;
    match goal with
    | |- context [match ?x with Some _ => true | None => false end] =>
        destruct x; cbn in *; try congruence; auto
    | |- context [existsb ?f ?l] =>
        destruct (existsb f l); cbn in *; try congruence; auto
    end.
Qed.







(** ** The time selectors *)

Ltac open_ui :=
  unfold built_ui, build_selectors, apply_config_durations,
    _create_time_selector, parse_and_apply_entry, update_display,
    try_catch, outcome, IntVar, StringVar, int_get, int_set, str_set,
    setattr, getattr, and_then, of_result, read, update, pure, throw,
    duration_var, components, entry_text, clock_text, settled.

Ltac calm := cbn -[fmt02d Z.div Z.modulo Z.mul Z.add Z.max Z.min Z.sub].

Ltac settled_store ui H :=
  let iv := fresh "iv" in
  let sv := fresh "sv" in
  let at_ := fresh "names" in
  destruct ui as [iv sv at_];
  destruct H as (?Ha & ?Hi & ?Hs);
  cbn in Ha, Hi, Hs; subst at_;
  do 10 (destruct iv as [| ? iv]; [discriminate |]);
  destruct iv; [| discriminate];
  do 2 (destruct sv as [| ? sv]; [discriminate |]);
  destruct sv; [| discriminate].

(** X15. A time selector keeps the full default duration in its seconds
    variable: while it is created, the attribute that [update_display]
    writes the total to is the seconds variable itself. After the
    constructor, whatever durations are configured, the selectors hold
    0:25:1500 and 0:05:300, their entries show the defaults 00:25:00 and
    00:05:00, and the duration variables that [save_settings] reads are new
    ones with the configured durations, raised to 1 when below. *)
Theorem selectors_after_construction (cfg : value) (u r : Z) :
  get_int cfg "use_seconds" 1500 = Ret u ->
  get_int cfg "rest_seconds" 300 = Ret r ->
  (forall minutes,
     exists sel ui,
       _create_time_selector "use" minutes empty_ui = (Ret sel, ui)
       /\ dict_get "use_seconds_var" (attrs ui) = Some (seconds_var sel)
       /\ components sel ui
            = (minutes * 60 / 3600, (minutes * 60 / 60) mod 60,
               (minutes * 60 / 3600) * 3600
               + ((minutes * 60 / 60) mod 60) * 60
               + (minutes * 60) mod 60))
  /\ exists ui,
       built_ui cfg = (Ret (use_selector, rest_selector), ui)
       /\ settled ui
       /\ components use_selector ui = (0, 25, 1500)
       /\ components rest_selector ui = (0, 5, 300)
       /\ entry_text use_selector ui = "00:25:00"
       /\ entry_text rest_selector ui = "00:05:00"
       /\ duration_var "use_seconds_var" ui = Some (Z.max 1 u)
       /\ duration_var "rest_seconds_var" ui = Some (Z.max 1 r).
Proof.
  intros Hu Hr. split.
  - intros minutes. open_ui. calm. eexists. eexists.
    split; [reflexivity |]. calm. split; reflexivity.
  - open_ui. rewrite Hu, Hr. calm. eexists.
    split; [vm_compute; reflexivity |]. vm_compute. repeat split.
Qed.

(** X16. When the text of the entry does not parse (not two or three
    fields, or a field that [int] rejects), [parse_and_apply_entry] leaves
    the hours, minutes and seconds variables as they are, rewrites the
    entry from them and stores their total in the duration variable. On the
    store as the constructor leaves it, where the seconds variable of the
    use selector still holds 1500, this shows 00:25:1500 and makes the use
    duration 3000 seconds, whatever was configured. *)
Theorem failed_parse_redisplays (text : string) (e : exn) :
  entry_fields text = Raise e ->
  (forall ui h m s,
     settled ui -> components use_selector ui = (h, m, s) ->
     exists ui',
       parse_and_apply_entry use_selector text ui = (Ret tt, ui')
       /\ settled ui'
       /\ components use_selector ui' = (h, m, s)
       /\ components rest_selector ui' = components rest_selector ui
       /\ entry_text use_selector ui' = clock_text h m s
       /\ duration_var "use_seconds_var" ui'
            = Some (h * 3600 + m * 60 + s)
       /\ duration_var "rest_seconds_var" ui'
            = duration_var "rest_seconds_var" ui)
  /\ (forall cfg u r ui,
        get_int cfg "use_seconds" 1500 = Ret u ->
        get_int cfg "rest_seconds" 300 = Ret r ->
        built_ui cfg = (Ret (use_selector, rest_selector), ui) ->
        entry_text use_selector
          (outcome (parse_and_apply_entry use_selector text) ui)
          = "00:25:1500"
        /\ duration_var "use_seconds_var"
             (outcome (parse_and_apply_entry use_selector text) ui)
             = Some 3000).
Proof.
  intros Hf. split.
  - intros ui h m s H C. settled_store ui H.
    revert C. open_ui. rewrite Hf. calm. intros C.
    injection C as -> -> ->.
    eexists. split; [reflexivity |]. calm. repeat split; reflexivity.
  - intros cfg u r ui Hu Hr B. revert B. open_ui.
    rewrite Hu, Hr, Hf. calm. intros B. injection B as <-.
    vm_compute. split; reflexivity.
Qed.

Lemma entry_fields_bounds (text : string) (h m s : Z) :
  entry_fields text = Ret (h, m, s) ->
  0 <= h <= 23 /\ 0 <= m <= 59 /\ 0 <= s <= 59.
Proof.
  unfold entry_fields.
  destruct (split_on ":" text) as [| p1 [| p2 [| p3 [| p4 ps]]]];
    cbn; try discriminate;
    repeat match goal with
           | |- context [int_of_str ?x] =>
               destruct (int_of_str x); cbn; try discriminate
           end;
    intros H; injection H as <- <- <-; lia.
Qed.

(** X17. When the text of the entry parses, the hours, minutes and seconds
    that [parse_and_apply_entry] stores are clamped to 0..23, 0..59 and
    0..59. It rewrites the entry from them and stores their total in the
    duration variable of its own selector, which is therefore between 0 and
    86399 seconds (zero included), and it leaves the other selector and the
    other duration alone. *)
Theorem parsed_time_is_clamped (text : string) (h m s : Z) :
  entry_fields text = Ret (h, m, s) ->
  (0 <= h <= 23 /\ 0 <= m <= 59 /\ 0 <= s <= 59
   /\ 0 <= h * 3600 + m * 60 + s <= 86399)
  /\ (forall ui,
        settled ui ->
        exists ui',
          parse_and_apply_entry use_selector text ui = (Ret tt, ui')
          /\ settled ui'
          /\ components use_selector ui' = (h, m, s)
          /\ entry_text use_selector ui' = clock_text h m s
          /\ duration_var "use_seconds_var" ui'
               = Some (h * 3600 + m * 60 + s)
          /\ components rest_selector ui' = components rest_selector ui
          /\ entry_text rest_selector ui' = entry_text rest_selector ui
          /\ duration_var "rest_seconds_var" ui'
               = duration_var "rest_seconds_var" ui)
  /\ (forall ui,
        settled ui ->
        exists ui',
          parse_and_apply_entry rest_selector text ui = (Ret tt, ui')
          /\ settled ui'
          /\ components rest_selector ui' = (h, m, s)
          /\ entry_text rest_selector ui' = clock_text h m s
          /\ duration_var "rest_seconds_var" ui'
               = Some (h * 3600 + m * 60 + s)
          /\ components use_selector ui' = components use_selector ui
          /\ entry_text use_selector ui' = entry_text use_selector ui
          /\ duration_var "use_seconds_var" ui'
               = duration_var "use_seconds_var" ui).
Proof.
  intros Hf. split; [| split].
  - pose proof (entry_fields_bounds text h m s Hf). lia.
  - intros ui H. settled_store ui H.
    open_ui. rewrite Hf. calm.
    eexists. split; [reflexivity |]. calm. repeat split; reflexivity.
  - intros ui H. settled_store ui H.
    open_ui. rewrite Hf. calm.
    eexists. split; [reflexivity |]. calm. repeat split; reflexivity.
Qed.

Lemma fmt02d_two_chars (z : Z) :
  0 <= z <= 59 -> two_plain_chars (fmt02d z) = true.
Proof.
  intros H.
  assert (A : forallb (fun n => two_plain_chars (fmt02d (Z.of_nat n)))
                (seq 0 60) = true) by (vm_compute; reflexivity).
  rewrite forallb_forall in A.
  specialize (A (Z.to_nat z)). rewrite Z2Nat.id in A by lia.
  apply A. apply in_seq. lia.
Qed.

Lemma split_clock_text (h m s : Z) :
  0 <= h <= 59 -> 0 <= m <= 59 -> 0 <= s <= 59 ->
  split_on ":" (clock_text h m s) = [fmt02d h; fmt02d m; fmt02d s].
Proof.
  intros Hh Hm Hs. unfold clock_text.
  pose proof (fmt02d_two_chars h Hh) as Ch.
  pose proof (fmt02d_two_chars m Hm) as Cm.
  pose proof (fmt02d_two_chars s Hs) as Cs.
  destruct (fmt02d h) as [| a1 [| b1 [| ? ?]]]; try discriminate.
  destruct (fmt02d m) as [| a2 [| b2 [| ? ?]]]; try discriminate.
  destruct (fmt02d s) as [| a3 [| b3 [| ? ?]]]; try discriminate.
  cbn in Ch, Cm, Cs.
  apply andb_true_iff in Ch, Cm, Cs.
  destruct Ch as [Ch1 Ch2], Cm as [Cm1 Cm2], Cs as [Cs1 Cs2].
  apply negb_true_iff in Ch1, Ch2, Cm1, Cm2, Cs1, Cs2.
  cbn. rewrite Ch1, Ch2, Cm1, Cm2, Cs1, Cs2. reflexivity.
Qed.

(** X18. What a selector displays parses back to itself: for hours,
    minutes and seconds within 0..23, 0..59 and 0..59 that [int] reads back
    from their two-digit form, the fields parsed from the text
    [HH:MM:SS] that [update_display] writes are those same numbers. *)
Theorem displayed_time_parses_back (h m s : Z) :
  0 <= h <= 23 -> 0 <= m <= 59 -> 0 <= s <= 59 ->
  int_of_str (fmt02d h) = Ret h ->
  int_of_str (fmt02d m) = Ret m ->
  int_of_str (fmt02d s) = Ret s ->
  entry_fields (clock_text h m s) = Ret (h, m, s).
Proof.
  intros Hh Hm Hs Ih Im Is. unfold entry_fields.
  rewrite split_clock_text by lia. cbn. rewrite Ih. cbn. rewrite Im. cbn.
  rewrite Is. cbn. f_equal. f_equal; [f_equal |]; lia.
Qed.

(** X19. [_format_seconds] shows the seconds as hours, minutes and seconds
    that add up to them, minutes and seconds below 60, with the hours
    field left out when it is zero; a negative number is shown as zero. *)
Theorem format_seconds_fields (sec : Z) :
  (sec <= 0 -> _format_seconds sec = "00:00")
  /\ exists h m s,
       0 <= h /\ 0 <= m < 60 /\ 0 <= s < 60
       /\ h * 3600 + m * 60 + s = Z.max 0 sec
       /\ _format_seconds sec
            = (if (h =? 0)%Z then fmt02d m ++ ":" ++ fmt02d s
               else clock_text h m s).
Proof.
  split.
  - intros H. unfold _format_seconds.
    destruct (Z.ltb_spec sec 0); [reflexivity |].
    assert (sec = 0) by lia. subst. reflexivity.
  - unfold _format_seconds.
    set (n := if (sec <? 0)%Z then 0 else sec).
    assert (Hn : n = Z.max 0 sec).
    { subst n. destruct (Z.ltb_spec sec 0); lia. }
    assert (N0 : 0 <= n) by lia.
    exists (n / 60 / 60), ((n / 60) mod 60), (n mod 60).
    pose proof (Z.div_mod n 60 ltac:(lia)) as D1.
    pose proof (Z.div_mod (n / 60) 60 ltac:(lia)) as D2.
    pose proof (Z.mod_pos_bound n 60 ltac:(lia)) as B1.
    pose proof (Z.mod_pos_bound (n / 60) 60 ltac:(lia)) as B2.
    assert (Q1 : 0 <= n / 60) by (apply Z.div_pos; lia).
    assert (Q2 : 0 <= n / 60 / 60) by (apply Z.div_pos; lia).
    repeat split; try lia.
    destruct (n / 60 / 60 =? 0)%Z; reflexivity.
Qed.
(** ** The window, the tray icon and the session window *)

Lemma deliver_config (e : event) (s : App) :
  config_data (deliver e s) = config_data s.
Proof.
  destruct e.
  - apply start_config.
  - open_more. repeat (case_result; cbn); try reflexivity;
      match goal with
      | |- config_data (snd (_tick ?x)) = _ => apply (tick_config x)
      end.
  - open_more. repeat (case_result; cbn); reflexivity.
  - open_more. destruct (scheduled_ticks s); cbn; [reflexivity |].
    match goal with
    | |- config_data (snd (_tick ?x)) = _ => apply (tick_config x)
    end.
  - open_more. repeat (case_result; cbn); reflexivity.
  - open_more.
    repeat (case_result; cbn);
      try (after_call start_config; repeat (case_result; cbn));
      try reflexivity; try assumption.
  - open_more. destruct (popups s); cbn; [reflexivity |].
    repeat (case_result; cbn); try reflexivity;
      match goal with
      | |- config_data (snd (_tick ?x)) = _ => apply (tick_config x)
      | |- config_data (snd (start_countdown ?x)) = _ =>
          apply (start_config x)
      end.
Qed.

Lemma tick_unlocked (s : App) :
  String.eqb (state s) LOCKED_PAUSED = false ->
  String.eqb (state (exec _tick s)) LOCKED_PAUSED = false.
Proof.
  intros H. unfold exec, _tick. open_more.
  repeat (case_result; cbn); first [exact H | reflexivity].
Qed.

Lemma start_unlocked (s : App) :
  String.eqb (state s) LOCKED_PAUSED = false ->
  String.eqb (state (exec start_countdown s)) LOCKED_PAUSED = false.
Proof.
  intros H. unfold exec, start_countdown. open_more.
  repeat (case_result; cbn); try exact H;
    apply tick_unlocked; first [exact H | reflexivity].
Qed.

Lemma deliver_unlocked (e : event) (s : App) :
  e <> Lock ->
  String.eqb (state s) LOCKED_PAUSED = false ->
  String.eqb (state (deliver e s)) LOCKED_PAUSED = false.
Proof.
  intros He H. destruct e; try congruence.
  - apply start_unlocked. exact H.
  - open_more. repeat (case_result; cbn); try exact H; try reflexivity;
      apply tick_unlocked; reflexivity.
  - open_more. repeat (case_result; cbn); reflexivity.
  - open_more. destruct (scheduled_ticks s); cbn; [exact H |].
    apply tick_unlocked. exact H.
  - open_more.
    repeat (case_result; cbn);
      try (after_call start_unlocked; repeat (case_result; cbn));
      try exact H; try reflexivity; try (apply HS; reflexivity).
  - open_more. destruct (popups s); cbn; [exact H |].
    repeat (case_result; cbn); try exact H; try reflexivity;
      first [apply tick_unlocked | apply start_unlocked];
      first [exact H | reflexivity].
Qed.

Lemma in_app_eq {A : Type} (m : M A) (d : Desk) :
  in_app m d = (fst (m (app d)), set_app (snd (m (app d))) d).
Proof.
  unfold in_app. destruct (m (app d)). reflexivity.
Qed.

Ltac open_desk :=
  unfold desk_deliver, deliverable, desk_handler, outcome, save_button,
    _on_window_close, _quit_app, get_hwnd, _restart_tray_if_needed,
    _stop_tray, _start_tray, config_flag, _wnd_proc, listening,
    register_session, and_then, of_result, read, update, pure, throw;
  rewrite ?in_app_eq; cbn.

Ltac case_desk :=
  match goal with
  | |- context [match ?x with _ => _ end] =>
      lazymatch x with
      | context [match _ with _ => _ end] => fail
      | _ => destruct x eqn:?
      end
  end.

Lemma hwnd_deliver (pf : platform) (e : desk_event) (d : Desk) :
  hwnd (desk_deliver pf e d) = hwnd d.
Proof.
  destruct e as [ev | | | | | | ed]; [destruct ev |..]; open_desk;
    repeat (case_desk; cbn); first [reflexivity | congruence].
Qed.

Lemma hwnd_run (pf : platform) (es : list desk_event) :
  forall d, hwnd (desk_run pf es d) = hwnd d.
Proof.
  induction es as [| e es IH]; intros d; cbn; [reflexivity |].
  unfold desk_run in IH. rewrite IH. apply hwnd_deliver.
Qed.

Lemma init_unlocked (f : config_file) (t w : bool) (a : App) :
  App__init__ f t w = Ret a ->
  String.eqb (state a) LOCKED_PAUSED = false.
Proof.
  intros H. unfold App__init__ in H.
  destruct (read_config f) as [cfg |]; cbn in H; [| discriminate].
  destruct (get_int cfg "use_seconds" 1500) as [u |] eqn:Hu; cbn in H;
    [| discriminate].
  unfold _apply_config_to_ui, _update_labels, bind, lift, gets, modify, ret
    in H.
  cbn in H. rewrite Hu in H. cbn in H.
  repeat match type of H with
         | context [match ?r with Ret _ => _ | Raise _ => _ end] =>
             destruct r eqn:?; cbn in H; try discriminate
         end.
  match type of H with
  | context [if ?b then _ else _] => destruct b
  end.
  - match type of H with
    | context [start_countdown ?x] =>
        pose proof (start_unlocked x) as P; unfold exec in P;
        destruct (start_countdown x) as [r1 s1]
    end.
    cbn in P. destruct r1; [| discriminate].
    injection H as <-. apply P. reflexivity.
  - cbn in H. injection H as <-. reflexivity.
Qed.

Lemma init_desk (pf : platform) (f : config_file) (t w : bool)
    (created : result Z) (d : Desk) :
  Desk__init__ pf f t w created = Ret d ->
  App__init__ f t w = Ret (app d)
  /\ _tray_icon d = false
  /\ root d = Shown
  /\ hwnd d = (if WINDOWS_SCREEN_STATUS_AVAILABLE pf
               then Assigned (match created with
                              | Ret h => Some h
                              | Raise _ => None
                              end)
               else Unset).
Proof.
  unfold Desk__init__.
  destruct (App__init__ f t w) as [a |]; cbn; [| discriminate].
  destruct (get_bool (config_data a) "enable_tray" true); cbn;
    [| discriminate].
  unfold register_session, and_then, update, pure.
  destruct (WINDOWS_SCREEN_STATUS_AVAILABLE pf); [destruct created |]; cbn;
    intros H; injection H as <-; cbn; auto.
Qed.

(** X20. Quitting, from the tray menu or from the close button with the
    tray off, destroys the main window only where the modules for the
    Windows session notifications were imported. Everywhere else the
    constructor never assigns [self.hwnd]: whatever happened since the
    program started, [_quit_app] stops the tray icon, raises
    AttributeError and leaves the window as it was. *)
Theorem quit_destroys_only_with_session_modules
    (pf : platform) (f : config_file) (t w : bool) (created : result Z)
    (d : Desk) (es : list desk_event) :
  Desk__init__ pf f t w created = Ret d ->
  let d1 := desk_run pf es d in
  let d2 := outcome (_quit_app pf) d1 in
  _tray_icon d2 = false
  /\ app d2 = app d1
  /\ if WINDOWS_SCREEN_STATUS_AVAILABLE pf
     then fst (_quit_app pf d1) = Ret tt /\ root d2 = Destroyed
     else fst (_quit_app pf d1) = Raise AttributeError /\ root d2 = root d1.
Proof.
  intros H d1 d2. destruct (init_desk pf f t w created d H) as (_ & _ & _ & Hh).
  pose proof (hwnd_run pf es d) as R. fold d1 in R. rewrite Hh in R.
  subst d2. revert R. generalize d1. clear. intros d R.
  open_desk.
  destruct (WINDOWS_SCREEN_STATUS_AVAILABLE pf);
    destruct (_tray_icon d) eqn:Ei; cbn; rewrite R; cbn;
    repeat (case_desk; cbn); auto.
Qed.

Lemma alive_deliver (pf : platform) (e : desk_event) (d : Desk) :
  hwnd d = Unset ->
  alive (root d) = true ->
  alive (root (desk_deliver pf e d)) = true.
Proof.
  intros Hh Ha.
  destruct e as [ev | | | | | | ed]; [destruct ev |..]; open_desk;
    rewrite ?Hh; repeat (case_desk; cbn); rewrite ?Hh; cbn;
    first [reflexivity | assumption | congruence].
Qed.

(** X21. Where the modules for the Windows session notifications are
    missing, which is every platform but Windows, nothing that the main
    loop delivers ends the program: after any sequence of commands, ticks,
    saves, close buttons and tray menu entries the main window is not
    destroyed. *)
Theorem window_is_never_destroyed_without_session_modules
    (pf : platform) (f : config_file) (t w : bool) (created : result Z)
    (d : Desk) (es : list desk_event) :
  WINDOWS_SCREEN_STATUS_AVAILABLE pf = false ->
  Desk__init__ pf f t w created = Ret d ->
  alive (root (desk_run pf es d)) = true.
Proof.
  intros Hw H. destruct (init_desk pf f t w created d H) as (_ & _ & Hr & Hh).
  rewrite Hw in Hh.
  assert (Ha : alive (root d) = true) by (rewrite Hr; reflexivity).
  clear H Hr. revert d Hh Ha.
  induction es as [| e es IH]; intros d Hh Ha; cbn; [exact Ha |].
  apply IH.
  - rewrite hwnd_deliver. exact Hh.
  - apply alive_deliver; assumption.
Qed.

Lemma save_unlocked (s : App) :
  String.eqb (state s) LOCKED_PAUSED = false ->
  String.eqb (state (snd (save_settings s))) LOCKED_PAUSED = false.
Proof.
  intros H. unfold save_settings, write_config, raise. open_more.
  repeat (case_result; cbn); first [exact H | reflexivity].
Qed.

Lemma unlocked_deliver (pf : platform) (e : desk_event) (d : Desk) :
  listening d = false ->
  String.eqb (state (app d)) LOCKED_PAUSED = false ->
  String.eqb (state (app (desk_deliver pf e d))) LOCKED_PAUSED = false.
Proof.
  intros Hl H. unfold desk_deliver, deliverable.
  destruct (alive (root d)); cbn; [| exact H].
  destruct e as [ev | | | | | | ed].
  - assert (D : forall ev', ev' <> Lock ->
                String.eqb (state (app (outcome (in_app (handler ev')) d)))
                  LOCKED_PAUSED = false).
    { intros ev' Hev. unfold outcome. rewrite in_app_eq. cbn.
      apply (deliver_unlocked ev' (app d) Hev H). }
    destruct ev; try (apply D; discriminate); rewrite Hl; exact H.
  - destruct (tray_start_pending d); [| exact H].
    open_desk. repeat (case_desk; cbn); exact H.
  - destruct (root d); try exact H.
    pose proof (save_unlocked (app d) H) as S.
    open_desk. repeat (case_desk; cbn); exact S.
  - destruct (root d); try exact H.
    open_desk. unfold emit, modify.
    repeat (case_desk; cbn); exact H.
  - destruct (_tray_icon d); exact H.
  - destruct (_tray_icon d); [| exact H].
    open_desk. repeat (case_desk; cbn); exact H.
  - destruct (root d); exact H.
Qed.

Lemma listening_deliver (pf : platform) (e : desk_event) (d : Desk) :
  listening (desk_deliver pf e d) = listening d.
Proof.
  unfold listening. rewrite hwnd_deliver. reflexivity.
Qed.

(** X22. The run state LOCKED_PAUSED needs the hidden window of the
    session notifications. Where the constructor did not get one, because
    the modules are missing or because creating or registering the window
    raised, no sequence of commands, ticks, saves, close buttons and tray
    menu entries ever puts the countdown into LOCKED_PAUSED. *)
Theorem no_locked_pause_without_session_window
    (pf : platform) (f : config_file) (t w : bool) (created : result Z)
    (d : Desk) (es : list desk_event) :
  Desk__init__ pf f t w created = Ret d ->
  listening d = false ->
  String.eqb (state (app (desk_run pf es d))) LOCKED_PAUSED = false.
Proof.
  intros H Hl. destruct (init_desk pf f t w created d H) as (Ha & _).
  pose proof (init_unlocked f t w (app d) Ha) as Hs.
  clear H Ha. revert d Hl Hs.
  induction es as [| e es IH]; intros d Hl Hs; cbn; [exact Hs |].
  apply IH.
  - rewrite listening_deliver. exact Hl.
  - apply unlocked_deliver; assumption.
Qed.

Lemma hidden_deliver (pf : platform) (e : desk_event) (d : Desk) :
  hwnd d = Unset -> root d = Withdrawn -> _tray_icon d = false ->
  tray_start_pending d = false ->
  hwnd (desk_deliver pf e d) = Unset
  /\ root (desk_deliver pf e d) = Withdrawn
  /\ _tray_icon (desk_deliver pf e d) = false
  /\ tray_start_pending (desk_deliver pf e d) = false.
Proof.
  intros Hh Hr Hi Hp.
  destruct e as [ev | | | | | | ed]; [destruct ev |..]; open_desk;
    rewrite ?Hh, ?Hr, ?Hi, ?Hp; cbn; auto.
Qed.

(** X23. Where [self.hwnd] was never assigned, the quit entry of the tray
    menu on a window that was closed to the tray leaves the program
    running out of reach: [_quit_app] stops the tray icon before it
    raises, so the window stays withdrawn and no icon is left, and nothing
    the main loop delivers afterwards brings either back. *)
Theorem quit_from_tray_hides_for_good
    (pf : platform) (d : Desk) (es : list desk_event) :
  hwnd d = Unset ->
  root d = Withdrawn ->
  _tray_icon d = true ->
  tray_start_pending d = false ->
  root (desk_run pf (MenuQuit :: es) d) = Withdrawn
  /\ _tray_icon (desk_run pf (MenuQuit :: es) d) = false.
Proof.
  intros Hh Hr Hi Hp. cbn.
  assert (K : hwnd (desk_deliver pf MenuQuit d) = Unset
              /\ root (desk_deliver pf MenuQuit d) = Withdrawn
              /\ _tray_icon (desk_deliver pf MenuQuit d) = false
              /\ tray_start_pending (desk_deliver pf MenuQuit d) = false).
  { open_desk. rewrite Hr, Hi. cbn. rewrite Hh. cbn. auto. }
  revert K. generalize (desk_deliver pf MenuQuit d). clear.
  induction es as [| e es IH]; intros d (Hh & Hr & Hi & Hp); cbn;
    [auto |].
  apply IH. apply hidden_deliver; assumption.
Qed.

Lemma save_settings_cases (s : App) :
  save_settings s = (Raise OSError, s)
  \/ exists s',
       save_settings s = (Ret tt, s')
       /\ get_bool (config_data s') "enable_tray" true
          = Ret (tray_var (vars s))
       /\ vars s' = vars s.
Proof.
  unfold save_settings, write_config, raise. open_more.
  destruct (writable s); cbn; [| left; reflexivity].
  right. unfold get_int, py_get. cbn. eexists. split; [reflexivity |].
  split; reflexivity.
Qed.

(** A tray icon exists only while the setting is on and both packages
    were imported. *)
Lemma icon_deliver (pf : platform) (e : desk_event) (d : Desk) :
  (_tray_icon d = true ->
   get_bool (config_data (app d)) "enable_tray" true = Ret true
   /\ TRAY_AVAILABLE pf = true /\ PIL_AVAILABLE pf = true) ->
  _tray_icon (desk_deliver pf e d) = true ->
  get_bool (config_data (app (desk_deliver pf e d))) "enable_tray" true
    = Ret true
  /\ TRAY_AVAILABLE pf = true /\ PIL_AVAILABLE pf = true.
Proof.
  intros J. unfold desk_deliver.
  destruct (deliverable e d); [| exact J].
  destruct e as [ev | | | | | | ed].
  - assert (D : forall ev',
              _tray_icon (outcome (in_app (handler ev')) d) = true ->
              get_bool
                (config_data (app (outcome (in_app (handler ev')) d)))
                "enable_tray" true = Ret true
              /\ TRAY_AVAILABLE pf = true /\ PIL_AVAILABLE pf = true).
    { intros ev'. unfold outcome. rewrite in_app_eq. cbn.
      pose proof (deliver_config ev' (app d)) as C.
      unfold deliver, exec in C. rewrite C. exact J. }
    destruct ev; try apply D.
    + pose proof (D Lock) as L. exact L.
    + pose proof (D Unlock) as L. exact L.
  - open_desk.
    destruct (get_bool (config_data (app d)) "enable_tray" true)
      as [[|] |] eqn:E; cbn;
      destruct (TRAY_AVAILABLE pf) eqn:Et, (PIL_AVAILABLE pf) eqn:Ep; cbn;
      destruct (_tray_icon d) eqn:Ei; cbn; intros Hi;
      try discriminate;
      try (destruct (J eq_refl) as (C & A & B); discriminate); auto.
  - unfold desk_handler, outcome, save_button, and_then.
    rewrite in_app_eq.
    destruct (save_settings_cases (app d)) as [E | (s' & E & C & _)];
      rewrite E; cbn [fst snd]; [exact J |].
    unfold _restart_tray_if_needed, _start_tray, _stop_tray, config_flag,
      and_then, of_result, read, update, pure.
    cbn. rewrite C. cbn.
    destruct (tray_var (vars (app d))); cbn;
      destruct (_tray_icon d) eqn:Ei; cbn; try discriminate.
    + intros _. destruct (J eq_refl) as (_ & A & B). auto.
    + rewrite C. cbn.
      destruct (TRAY_AVAILABLE pf), (PIL_AVAILABLE pf); cbn; rewrite ?Ei;
        cbn; try discriminate; auto.
    + rewrite Ei. discriminate.
  - open_desk. unfold emit, modify.
    repeat (case_desk; cbn); try discriminate; intros Hi;
      first [ congruence
            | destruct (J Hi) as (? & ? & ?); repeat split; congruence ].
  - exact J.
  - open_desk. repeat (case_desk; cbn); intros Hi; congruence.
  - exact J.
Qed.

(** X24. The tray icon follows the saved setting. Whatever happened since
    the program started, edits of the settings included, when the save
    button returns there is a tray icon exactly if the tray box is ticked
    at that moment and both the tray package and the image package were
    imported. *)
Theorem tray_icon_follows_saved_setting
    (pf : platform) (f : config_file) (t w : bool) (created : result Z)
    (d d2 : Desk) (es : list desk_event) :
  Desk__init__ pf f t w created = Ret d ->
  save_button pf (desk_run pf es d) = (Ret tt, d2) ->
  _tray_icon d2
  = tray_var (vars (app (desk_run pf es d)))
    && TRAY_AVAILABLE pf && PIL_AVAILABLE pf.
Proof.
  intros H. destruct (init_desk pf f t w created d H) as (_ & Hi & _).
  assert (J : _tray_icon (desk_run pf es d) = true ->
              get_bool (config_data (app (desk_run pf es d)))
                "enable_tray" true = Ret true
              /\ TRAY_AVAILABLE pf = true /\ PIL_AVAILABLE pf = true).
  { assert (J0 : _tray_icon d = true ->
                 get_bool (config_data (app d)) "enable_tray" true = Ret true
                 /\ TRAY_AVAILABLE pf = true /\ PIL_AVAILABLE pf = true)
      by (rewrite Hi; discriminate).
    clear H Hi. revert d J0.
    induction es as [| e es IH]; intros d J0; cbn; [exact J0 |].
    apply IH. apply icon_deliver. exact J0. }
  revert J. generalize (desk_run pf es d). clear. intros d J.
  unfold save_button, and_then. rewrite in_app_eq.
  destruct (save_settings_cases (app d)) as [E | (s' & E & C & _)];
    rewrite E; cbn [fst snd]; [discriminate |].
  unfold _restart_tray_if_needed, _start_tray, _stop_tray, config_flag,
    and_then, of_result, read, update, pure.
  cbn. rewrite C. cbn.
  destruct (tray_var (vars (app d))); cbn;
    destruct (_tray_icon d) eqn:Ei; cbn.
  - intros E2. injection E2 as <-. cbn.
    destruct (J eq_refl) as (_ & A & B). rewrite Ei, A, B. reflexivity.
  - rewrite C. cbn.
    destruct (TRAY_AVAILABLE pf), (PIL_AVAILABLE pf); cbn; rewrite ?Ei;
      cbn; intros E2; injection E2 as <-; cbn; rewrite ?Ei; reflexivity.
  - intros E2. injection E2 as <-. reflexivity.
  - intros E2. injection E2 as <-. cbn. exact Ei.
Qed.

End Proofs.

(** * The properties on concrete sessions *)

#[local] Existing Instance decimal_interp.

(** C1 at the failing input: the session was locked during the rest phase
    with 4 seconds left and the tick scheduled before the lock has fired.
    The unlock signal sets the run state to RUNNING and no tick is
    scheduled: sixty tick periods later the 4 seconds are still there. *)
Lemma unlock_leaves_countdown_stopped :
  session rest_locked = (REST, LOCKED_PAUSED, 4)
  /\ scheduled_ticks rest_locked = 0%nat
  /\ session (deliver Unlock rest_locked) = (REST, RUNNING, 4)
  /\ scheduled_ticks (deliver Unlock rest_locked) = 0%nat
  /\ run (repeat Tick 60) (deliver Unlock rest_locked)
       = deliver Unlock rest_locked.
Proof.
  destruct (unlock_sets_running_without_tick rest_locked)
    as (_ & A & B & _ & C).
  - vm_compute. reflexivity.
  - right. vm_compute. reflexivity.
  - split; [vm_compute; reflexivity |].
    split; [vm_compute; reflexivity |].
    split; [exact A |]. split; [exact B |].
    apply C. vm_compute. reflexivity.
Defined.

(** C2 refuted. A reset leaves the tick that the start scheduled in the
    queue. After a second start, before that tick is due, two ticks are
    scheduled, both due within a second of the second start; when both have
    fired, the one from before the reset among them, the session that was
    restarted with 4 seconds left has 2. The same happens on a pause and a
    resume: each resume runs a tick at once and schedules one more. *)
Lemma reset_keeps_tick_and_doubles_countdown :
  scheduled_ticks (run [Start; ResetCmd] (fresh_app 5 2)) = 1%nat
  /\ session (run [Start; ResetCmd] (fresh_app 5 2)) = (USE, IDLE, 5)
  /\ session (run [Start; ResetCmd; Start] (fresh_app 5 2))
       = (USE, RUNNING, 4)
  /\ scheduled_ticks (run [Start; ResetCmd; Start] (fresh_app 5 2)) = 2%nat
  /\ session (run [Start; ResetCmd; Start; Tick; Tick] (fresh_app 5 2))
       = (USE, RUNNING, 2)
  /\ session (run [Start; PauseOrResume; PauseOrResume] (fresh_app 5 2))
       = (USE, RUNNING, 3)
  /\ scheduled_ticks
       (run [Start; PauseOrResume; PauseOrResume] (fresh_app 5 2)) = 2%nat
  /\ session
       (run [Start; PauseOrResume; PauseOrResume; Tick; Tick] (fresh_app 5 2))
       = (USE, RUNNING, 1).
Proof. vm_compute. repeat split; reflexivity. Qed.

(** C2 as the code has it, on the session that was just started: reset,
    pause and lock leave its one scheduled tick; once it is paused, that
    tick fires as a no-op. *)
Lemma scheduled_tick_survives_reset_and_pause :
  scheduled_ticks (deliver ResetCmd just_started) = scheduled_ticks just_started
  /\ state (deliver PauseOrResume just_started) = PAUSED
  /\ scheduled_ticks (deliver PauseOrResume just_started)
       = scheduled_ticks just_started
  /\ deliver Tick (deliver PauseOrResume just_started)
       = set_scheduled_ticks 0 (deliver PauseOrResume just_started).
Proof.
  destruct (scheduled_ticks_are_never_cancelled just_started)
    as (A & B & _).
  destruct (scheduled_ticks_are_never_cancelled
              (deliver PauseOrResume just_started))
    as (_ & _ & _ & D & _).
  destruct B as (B1 & B2); [vm_compute; reflexivity |].
  split; [exact A |]. split; [exact B1 |]. split; [exact B2 |].
  apply D; vm_compute; reflexivity.
Defined.

(** C3 on a session of five seconds: none of the first four ticks completes
    the phase, the fifth does, once. *)
Lemma five_seconds_complete_once :
  state (fresh_app 5 2) = IDLE
  /\ remaining_seconds (fresh_app 5 2) = 5
  /\ completed (effects (run (Start :: repeat Tick 4) (fresh_app 5 2))) = []
  /\ completed (effects (run (Start :: repeat Tick 5) (fresh_app 5 2)))
       = [USE]
  /\ state (run (Start :: repeat Tick 5) (fresh_app 5 2)) = IDLE
  /\ scheduled_ticks (run (Start :: repeat Tick 5) (fresh_app 5 2)) = 0%nat.
Proof.
  destruct phase_completes_exactly_once as (_ & _ & G).
  destruct (G (fresh_app 5 2) 4%nat) as (A & B & C & D);
    [reflexivity | reflexivity | reflexivity |].
  destruct (A 4%nat) as (A1 & _); [lia |].
  repeat split; assumption.
Defined.

(** C4 on a sequence of commands and ticks that pauses, resets and runs the
    use phase to its end. *)
Lemma session_invariant_on_a_run :
  0 <= remaining_seconds
         (run [Start; Tick; PauseOrResume; Tick; PauseOrResume; ResetCmd;
               Start; Tick; Tick; Tick; Tick; Tick; Tick; Start]
            (fresh_app 5 2))
  /\ In (state
           (run [Start; Tick; PauseOrResume; Tick; PauseOrResume; ResetCmd;
                 Start; Tick; Tick; Tick; Tick; Tick; Tick; Start]
              (fresh_app 5 2)))
        [IDLE; RUNNING; PAUSED; LOCKED_PAUSED].
Proof.
  apply (session_invariant (durations_file 5 2) true true).
  - reflexivity.
  - exists 5, 2. repeat split; try reflexivity; lia.
  - reflexivity.
Defined.

(** C5 refuted. In the session locked during the rest phase with 4 seconds
    left, the start command (the tray menu delivers it whatever the state
    of the button) sets the run state to RUNNING and takes a second off. *)
Lemma start_resumes_locked_session :
  session (run [Start; Tick; Acknowledge; Lock] (fresh_app 1 5))
    = (REST, LOCKED_PAUSED, 4)
  /\ session (run [Start; Tick; Acknowledge; Lock; Start] (fresh_app 1 5))
       = (REST, RUNNING, 3).
Proof. vm_compute. split; reflexivity. Qed.

(** C5 as the code has it, on the locked session: pause or resume, a tick
    and a second lock signal change nothing of the session, and start sets
    it running. *)
Lemma unlisted_pairs_on_locked_session :
  listed_transition rest_locked PauseOrResume = false
  /\ session (deliver PauseOrResume rest_locked) = session rest_locked
  /\ session (deliver Tick rest_locked) = session rest_locked
  /\ session (deliver Lock rest_locked) = session rest_locked
  /\ session (deliver Start rest_locked) = (REST, RUNNING, 3).
Proof.
  split; [reflexivity |].
  split; [exact (unlisted_pair_is_noop_except_start
                   rest_locked PauseOrResume eq_refl) |].
  split; [exact (unlisted_pair_is_noop_except_start
                   rest_locked Tick eq_refl) |].
  split; [exact (unlisted_pair_is_noop_except_start
                   rest_locked Lock eq_refl) |].
  destruct (unlisted_pair_is_noop_except_start rest_locked Start eq_refl)
    as (_ & A).
  destruct A as (A & _); [reflexivity | reflexivity |]. exact A.
Defined.

(** C6 on a running rest phase and on a running use phase. *)
Lemma lock_signal_on_rest_and_on_use :
  session (run [Start; Tick; Acknowledge] (fresh_app 1 5))
    = (REST, RUNNING, 4)
  /\ session (deliver Lock (run [Start; Tick; Acknowledge] (fresh_app 1 5)))
       = (REST, LOCKED_PAUSED, 4)
  /\ current_phase just_started = USE
  /\ state (deliver Lock just_started) = state just_started.
Proof.
  destruct (lock_pauses_only_running_rest
              (run [Start; Tick; Acknowledge] (fresh_app 1 5)))
    as (A & _).
  destruct A as (_ & A & _); [reflexivity | reflexivity |].
  destruct (lock_pauses_only_running_rest just_started) as (_ & _ & B).
  split; [reflexivity |]. split; [exact A |]. split; [reflexivity |].
  apply B. reflexivity.
Defined.



(** C8 on the running session and on the fresh, idle one. *)
Lemma redundant_commands_on_sessions :
  state just_started = RUNNING
  /\ start_countdown just_started = (Ret tt, just_started)
  /\ state (fresh_app 5 2) = IDLE
  /\ toggle_pause (fresh_app 5 2) = (Ret tt, fresh_app 5 2).
Proof.
  destruct (redundant_command_is_noop just_started) as (A & _).
  destruct (redundant_command_is_noop (fresh_app 5 2)) as (_ & B).
  destruct A as (A & _); [vm_compute; reflexivity |].
  destruct B as (B & _); [vm_compute; reflexivity |].
  split; [vm_compute; reflexivity |]. split; [exact A |].
  split; [vm_compute; reflexivity | exact B].
Defined.

(** C9 on a file that holds the number 3: the membership test of the [try]
    block raises, and the defaults come back. *)
Lemma number_in_config_file_gives_defaults :
  read_config_try (Holds (PInt 3)) = Raise TypeError
  /\ read_config (Holds (PInt 3)) = Ret default_config.
Proof.
  destruct read_config_falls_back_to_defaults as (_ & _ & A & _).
  split; [reflexivity |].
  apply (A (Holds (PInt 3)) TypeError). reflexivity.
Defined.

(** C10 on a session whose live configuration had [fullscreen_rest] on and
    [enable_toast] off. *)
Lemma saving_forgets_the_two_toggles :
  get_bool (config_data
              (set_config_data
                 (PDict [ ("use_seconds", PInt 5);
                          ("enable_toast", PBool false);
                          ("fullscreen_rest", PBool true) ])
                 (fresh_app 5 2)))
    "fullscreen_rest" false = Ret true
  /\ get_bool (config_data
                 (exec save_settings
                    (set_config_data
                       (PDict [ ("use_seconds", PInt 5);
                                ("enable_toast", PBool false);
                                ("fullscreen_rest", PBool true) ])
                       (fresh_app 5 2))))
       "fullscreen_rest" false = Ret false
  /\ get_bool (config_data
                 (exec save_settings
                    (set_config_data
                       (PDict [ ("use_seconds", PInt 5);
                                ("enable_toast", PBool false);
                                ("fullscreen_rest", PBool true) ])
                       (fresh_app 5 2))))
       "enable_toast" true = Ret true.
Proof.
  destruct (save_settings_drops_toast_and_fullscreen
              (set_config_data
                 (PDict [ ("use_seconds", PInt 5);
                          ("enable_toast", PBool false);
                          ("fullscreen_rest", PBool true) ])
                 (fresh_app 5 2)))
    as (_ & H).
  destruct H as (_ & _ & _ & _ & _ & _ & A & B & _); [reflexivity |].
  split; [reflexivity |]. split; [exact B | exact A].
Defined.



(** X2 on a session of five seconds just started: two pauses with their
    resumes take two of the four seconds left and leave three ticks
    scheduled. *)
Lemma two_pauses_cost_two_seconds :
  remaining_seconds just_started = 4
  /\ remaining_seconds
       (run (List.concat (repeat pause_resume 2)) just_started) = 2
  /\ scheduled_ticks
       (run (List.concat (repeat pause_resume 2)) just_started) = 3%nat.
Proof.
  destruct (pause_resume_costs_a_second 2 just_started)
    as (_ & _ & A & B & _).
  - lazy. reflexivity.
  - lazy. discriminate.
  - split; [lazy; reflexivity |].
    split; [rewrite A | rewrite B]; lazy; reflexivity.
Defined.

(** X3 on a session started, reset and started again: four seconds are
    left and two ticks are scheduled, and the two take it to two
    seconds. *)
Lemma two_scheduled_ticks_take_two_seconds :
  session (run [Start; ResetCmd; Start] (fresh_app 5 2)) = (USE, RUNNING, 4)
  /\ scheduled_ticks (run [Start; ResetCmd; Start] (fresh_app 5 2)) = 2%nat
  /\ run (repeat Tick
            (scheduled_ticks (run [Start; ResetCmd; Start] (fresh_app 5 2))))
       (run [Start; ResetCmd; Start] (fresh_app 5 2))
     = set_remaining_seconds 2 (run [Start; ResetCmd; Start] (fresh_app 5 2)).
Proof.
  split; [lazy; reflexivity |]. split; [lazy; reflexivity |].
  rewrite (scheduled_ticks_each_take_a_second
             (run [Start; ResetCmd; Start] (fresh_app 5 2))).
  - lazy. reflexivity.
  - lazy. reflexivity.
  - lazy. discriminate.
Defined.

(** X4 on the running rest phase after a use phase of one second. *)
Lemma lock_and_unlock_during_rest :
  session (run [Start; Tick; Acknowledge] (fresh_app 1 5))
    = (REST, RUNNING, 4)
  /\ session (run [Lock; Unlock]
                (run [Start; Tick; Acknowledge] (fresh_app 1 5)))
     = session (run [Start; Tick; Acknowledge] (fresh_app 1 5))
  /\ scheduled_ticks (run [Lock; Unlock]
                        (run [Start; Tick; Acknowledge] (fresh_app 1 5)))
     = scheduled_ticks (run [Start; Tick; Acknowledge] (fresh_app 1 5)).
Proof.
  destruct (lock_then_unlock_restores
              (run [Start; Tick; Acknowledge] (fresh_app 1 5)))
    as (A & B & _).
  - lazy. reflexivity.
  - lazy. reflexivity.
  - split; [lazy; reflexivity |]. split; [exact A | exact B].
Defined.


(** X7 on the completed use phase of one second: the close request
    destroys the popup, and the start button then runs the use phase
    again. *)
Lemma closed_popup_then_start :
  ignore_close use_completed = (Ret tt, set_popups [] use_completed)
  /\ observed
       [ ("use_seconds", PInt 1); ("rest_seconds", PInt 5);
         ("auto_start_countdown", PBool false); ("enable_tray", PBool false);
         ("enable_lock_screen", PBool false) ]
       RUNNING USE 0 1 0 [USE] 0
       (deliver Start (exec ignore_close use_completed)).
Proof.
  destruct (closing_popup_repeats_phase
              [ ("use_seconds", PInt 1); ("rest_seconds", PInt 5);
                ("auto_start_countdown", PBool false);
                ("enable_tray", PBool false);
                ("enable_lock_screen", PBool false) ]
              IDLE USE 0 1 5 0 0 [USE] 0
              {| pop_fullscreen := false; pop_width := 600;
                 pop_height := 400; pop_button := true |}
              [] use_completed) as (_ & A).
  - lazy. reflexivity.
  - destruct A as (A & B); [reflexivity |].
    split; [exact A |].
    apply B; try (lazy; reflexivity); try lia.
    unfold observed. repeat split; lazy; reflexivity.
Defined.

(** X8 on the object the constructor builds without a toaster: a whole
    round of the timer shows no toast. *)
Lemma round_without_toaster_shows_no_toast :
  App__init__ (durations_file 1 1) false true = Ret (fresh_app_quiet 1 1)
  /\ completed
       (effects (run [Start; Tick; Acknowledge; Tick; Acknowledge]
                   (fresh_app_quiet 1 1)))
     = [USE; REST]
  /\ toasts
       (effects (run [Start; Tick; Acknowledge; Tick; Acknowledge]
                   (fresh_app_quiet 1 1)))
     = [].
Proof.
  split; [lazy; reflexivity |].
  split; [lazy; reflexivity |].
  destruct (no_toast_without_toaster
              [Start; Tick; Acknowledge; Tick; Acknowledge]
              (fresh_app_quiet 1 1) eq_refl) as (_ & A).
  exact A.
Defined.

(** X9 on a round of the timer with the lock-screen toggle off. *)
Lemma round_with_toggle_off_locks_nothing :
  completed
    (effects (run [Start; Tick; Acknowledge; Tick; Acknowledge]
                (fresh_app 1 1)))
  = [USE; REST]
  /\ lock_actions
       (effects (run [Start; Tick; Acknowledge; Tick; Acknowledge]
                   (fresh_app 1 1)))
     = 0%nat.
Proof.
  split; [lazy; reflexivity |].
  destruct (no_lock_action_while_toggle_off
              [ ("use_seconds", PInt 1); ("rest_seconds", PInt 1);
                ("auto_start_countdown", PBool false);
                ("enable_tray", PBool false);
                ("enable_lock_screen", PBool false) ]
              [Start; Tick; Acknowledge; Tick; Acknowledge]
              eq_refl (fresh_app 1 1) eq_refl) as (_ & A).
  exact A.
Defined.

(** X10 on the tick that completes a use phase of one second: the phase
    is still the use phase, with the countdown idle. *)
Lemma completing_tick_keeps_phase :
  state (deliver Tick (run [Start] (fresh_app 1 5))) = IDLE
  /\ current_phase (deliver Tick (run [Start] (fresh_app 1 5))) = USE.
Proof.
  split; [lazy; reflexivity |].
  rewrite (phase_waits_for_the_button Tick (run [Start] (fresh_app 1 5))).
  - lazy. reflexivity.
  - reflexivity.
Defined.

(** X12 on a list that holds the key, which is returned as it is and ends
    the constructor, and on a string without it, which gives the
    defaults. *)
Lemma list_and_string_in_config_file :
  read_config (Holds (PList [PStr "enable_lock_screen"]))
    = Ret (PList [PStr "enable_lock_screen"])
  /\ App__init__ (Holds (PList [PStr "enable_lock_screen"])) true true
     = Raise AttributeError
  /\ read_config (Holds (PStr "seconds")) = Ret default_config.
Proof.
  destruct (read_config_of_other_documents
              (PList [PStr "enable_lock_screen"]) true true eq_refl)
    as (A & _).
  destruct (read_config_of_other_documents (PStr "seconds") true true eq_refl)
    as (_ & B).
  destruct A as (A1 & A2); [lazy; reflexivity |].
  split; [exact A1 |]. split; [exact A2 |].
  apply B. lazy. discriminate.
Defined.


(** X15 on a configuration of 90 and 30 seconds: the selectors show the
    25 and 5 minutes of [_build_ui], the seconds variable of the first
    holds 1500, and the durations to save are those of the
    configuration. *)
Lemma selectors_ignore_configuration :
  exists ui,
    built_ui (PDict [("use_seconds", PInt 90); ("rest_seconds", PInt 30)])
      = (Ret (use_selector, rest_selector), ui)
    /\ settled ui
    /\ components use_selector ui = (0, 25, 1500)
    /\ components rest_selector ui = (0, 5, 300)
    /\ entry_text use_selector ui = "00:25:00"
    /\ entry_text rest_selector ui = "00:05:00"
    /\ duration_var "use_seconds_var" ui = Some 90
    /\ duration_var "rest_seconds_var" ui = Some 30.
Proof.
  destruct (selectors_after_construction
              (PDict [("use_seconds", PInt 90); ("rest_seconds", PInt 30)])
              90 30) as (_ & A).
  - lazy. reflexivity.
  - lazy. reflexivity.
  - exact A.
Defined.

(** X16 on a text that is no time, typed into the entry of the use
    duration right after the program started: the entry shows 1500 in the
    seconds field and 3000 seconds would be saved. *)
Lemma unreadable_entry_after_start :
  entry_fields "soon" = Raise ValueError
  /\ entry_text use_selector
       (outcome (parse_and_apply_entry use_selector "soon")
          (snd (built_ui default_config)))
     = "00:25:1500"
  /\ duration_var "use_seconds_var"
       (outcome (parse_and_apply_entry use_selector "soon")
          (snd (built_ui default_config)))
     = Some 3000.
Proof.
  split; [lazy; reflexivity |].
  destruct (failed_parse_redisplays "soon" ValueError) as (_ & A).
  - lazy. reflexivity.
  - apply (A default_config 1500 300 (snd (built_ui default_config)));
      lazy; reflexivity.
Defined.

(** X17 on a text with every field too large, typed into the entry of the
    use duration: the fields are clamped to 23:59:59 and 86399 seconds
    would be saved. *)
Lemma oversized_entry_is_clamped :
  entry_fields "99:99:99" = Ret (23, 59, 59)
  /\ exists ui',
       parse_and_apply_entry use_selector "99:99:99"
         (snd (built_ui default_config)) = (Ret tt, ui')
       /\ entry_text use_selector ui' = clock_text 23 59 59
       /\ duration_var "use_seconds_var" ui' = Some 86399.
Proof.
  split; [lazy; reflexivity |].
  destruct (parsed_time_is_clamped "99:99:99" 23 59 59) as (_ & A & _).
  - lazy. reflexivity.
  - destruct (A (snd (built_ui default_config)))
      as (ui' & P1 & _ & _ & P4 & P5 & _).
    + unfold settled. repeat split; lazy; reflexivity.
    + exists ui'. split; [exact P1 |]. split; [exact P4 | exact P5].
Defined.

(** X18 on one hour, five minutes and nine seconds. *)
Lemma displayed_time_read_back :
  clock_text 1 5 9 = "01:05:09"
  /\ entry_fields (clock_text 1 5 9) = Ret (1, 5, 9).
Proof.
  split; [lazy; reflexivity |].
  apply (displayed_time_parses_back 1 5 9); try lia; lazy; reflexivity.
Defined.

(** X20 where the session modules are missing, after the window was
    closed to the tray, and where they were imported. *)
Lemma quit_with_and_without_session_modules :
  Desk__init__ tray_only tray_file true true (Raise OSError)
    = Ret (tray_desk Unset)
  /\ fst (_quit_app tray_only
            (desk_run tray_only [StartTray; CloseWindow] (tray_desk Unset)))
     = Raise AttributeError
  /\ root (outcome (_quit_app tray_only)
             (desk_run tray_only [StartTray; CloseWindow] (tray_desk Unset)))
     = Withdrawn
  /\ Desk__init__ all_modules tray_file true true (Ret 7)
     = Ret (tray_desk (Assigned (Some 7)))
  /\ fst (_quit_app all_modules
            (desk_run all_modules [StartTray; CloseWindow]
               (tray_desk (Assigned (Some 7)))))
     = Ret tt
  /\ root (outcome (_quit_app all_modules)
             (desk_run all_modules [StartTray; CloseWindow]
                (tray_desk (Assigned (Some 7)))))
     = Destroyed.
Proof.
  destruct (quit_destroys_only_with_session_modules
              tray_only tray_file true true (Raise OSError)
              (tray_desk Unset) [StartTray; CloseWindow])
    as (_ & _ & A & B); [lazy; reflexivity |].
  destruct (quit_destroys_only_with_session_modules
              all_modules tray_file true true (Ret 7)
              (tray_desk (Assigned (Some 7))) [StartTray; CloseWindow])
    as (_ & _ & C & D); [lazy; reflexivity |].
  split; [lazy; reflexivity |]. split; [exact A |].
  split; [rewrite B; lazy; reflexivity |].
  split; [lazy; reflexivity |]. split; [exact C | exact D].
Defined.

(** X21 where the session modules are missing: the close button, the
    quit entry of the tray menu, the entry that shows the window and the
    close button again leave a window. *)
Lemma window_survives_quit_entry :
  alive (root (desk_run tray_only
                 [StartTray; CloseWindow; MenuQuit; Loop Start; CloseWindow]
                 (tray_desk Unset)))
  = true.
Proof.
  apply (window_is_never_destroyed_without_session_modules
           tray_only tray_file true true (Raise OSError)).
  - reflexivity.
  - lazy. reflexivity.
Defined.

(** X22 where the modules were imported and registering the hidden window
    raised: a lock notification during the rest phase does not reach the
    countdown. *)
Lemma no_lock_notification_without_window :
  listening (tray_desk (Assigned None)) = false
  /\ session (app (desk_run all_modules
                     [Loop Start; Loop Tick; Loop Tick; Loop Tick; Loop Tick;
                      Loop Tick; Loop Acknowledge; Loop Lock]
                     (tray_desk (Assigned None))))
     = (REST, RUNNING, 1)
  /\ String.eqb
       (state (app (desk_run all_modules
                      [Loop Start; Loop Tick; Loop Tick; Loop Tick; Loop Tick;
                       Loop Tick; Loop Acknowledge; Loop Lock]
                      (tray_desk (Assigned None)))))
       LOCKED_PAUSED
     = false.
Proof.
  split; [reflexivity |]. split; [lazy; reflexivity |].
  apply (no_locked_pause_without_session_window
           all_modules tray_file true true (Raise OSError)).
  - lazy. reflexivity.
  - reflexivity.
Defined.

(** X23 where the session modules are missing, on the window closed to
    the tray: after the quit entry neither the tray, the buttons nor the
    countdown bring the window or the icon back. *)
Lemma quit_entry_leaves_hidden_program :
  root (desk_run tray_only [StartTray; CloseWindow] (tray_desk Unset))
    = Withdrawn
  /\ _tray_icon (desk_run tray_only [StartTray; CloseWindow]
                   (tray_desk Unset))
     = true
  /\ root (desk_run tray_only
             [MenuQuit; MenuShow; StartTray; Loop Start; Save; CloseWindow]
             (desk_run tray_only [StartTray; CloseWindow] (tray_desk Unset)))
     = Withdrawn
  /\ _tray_icon
       (desk_run tray_only
          [MenuQuit; MenuShow; StartTray; Loop Start; Save; CloseWindow]
          (desk_run tray_only [StartTray; CloseWindow] (tray_desk Unset)))
     = false.
Proof.
  split; [lazy; reflexivity |]. split; [lazy; reflexivity |].
  apply (quit_from_tray_hides_for_good tray_only
           (desk_run tray_only [StartTray; CloseWindow] (tray_desk Unset))
           [MenuShow; StartTray; Loop Start; Save; CloseWindow]);
    lazy; reflexivity.
Defined.

(** X24 after the tray started: saving with the tray box cleared stops the
    icon, and saving with the box ticked again starts it again. *)
Lemma saving_follows_tray_box :
  _tray_icon (desk_run tray_only [StartTray] (tray_desk Unset)) = true
  /\ fst (save_button tray_only
            (desk_run tray_only [StartTray; Edit (TrayBox false)]
               (tray_desk Unset)))
     = Ret tt
  /\ _tray_icon
       (snd (save_button tray_only
               (desk_run tray_only [StartTray; Edit (TrayBox false)]
                  (tray_desk Unset))))
     = false
  /\ _tray_icon
       (snd (save_button tray_only
               (desk_run tray_only
                  [StartTray; Edit (TrayBox false); Save; Edit (TrayBox true)]
                  (tray_desk Unset))))
     = true.
Proof.
  split; [lazy; reflexivity |]. split; [lazy; reflexivity |].
  split.
  - rewrite (tray_icon_follows_saved_setting
               tray_only tray_file true true (Raise OSError)
               (tray_desk Unset)
               (snd (save_button tray_only
                       (desk_run tray_only [StartTray; Edit (TrayBox false)]
                          (tray_desk Unset))))
               [StartTray; Edit (TrayBox false)]);
      lazy; reflexivity.
  - rewrite (tray_icon_follows_saved_setting
               tray_only tray_file true true (Raise OSError)
               (tray_desk Unset)
               (snd (save_button tray_only
                       (desk_run tray_only
                          [StartTray; Edit (TrayBox false); Save;
                           Edit (TrayBox true)]
                          (tray_desk Unset))))
               [StartTray; Edit (TrayBox false); Save; Edit (TrayBox true)]);
      lazy; reflexivity.
Defined.
